(** * KOSIS data preprocessing: a shallow embedding of [data_preprocessing.py]

    The script loads statistical CSV exports with pandas, turns the text
    columns that hold comma-grouped numbers into float columns, reports
    missing values, and writes the cleaned tables back as CSV.

    The embedding follows the script function by function.  What the script
    takes from its platform is kept apart from it:
    - Python text is a sequence of Unicode code points; [float], [int],
      [str.replace] and [re.findall] are embedded from their language
      definition;
    - the Unicode character database, the [repr] of a float, the CSV dialect
      writer and the CSV parser of pandas are fields of a [Runtime] record,
      over which every definition and theorem is generic;
    - console output and the files of the data directory are the state of a
      small state-and-exception monad.

    Scope of the model: the POSIX path flavour; exceptions derived from
    [Exception] (asynchronous interrupts are not modelled); [int] has
    unbounded precision and no limit on the length of the literal it
    converts; a text column is a pandas column of dtype [object] whose cells
    are strings or missing. *)

From Stdlib Require Import ZArith NArith List String Ascii Bool Lia DecimalString.
From Stdlib Require Import Floats.SpecFloat.
From stdpp Require Import base option list gmap.

Local Open Scope N_scope.

(* ================================================================== *)
(** * Part I: definitions *)
(* ================================================================== *)

(** ** Python text *)

Module Text.

(** A Python [str] is a sequence of code points. *)
Definition codepoint := N.
Definition pystr := list codepoint.

Definition bytes := list Byte.byte.

Definition byte_val (b : Byte.byte) : N := Byte.to_N b.

Definition byte_of_N (n : N) : Byte.byte :=
  match Byte.of_N (n mod 256) with
  | Some b => b
  | None => Byte.x00
  end.

(** UTF-8 decoding, used to read the string literals of the script.  An
    ill-formed tail is dropped. *)
Fixpoint utf8_decode (bs : list N) : pystr :=
  match bs with
  | [] => []
  | b0 :: r0 =>
      if b0 <? 128 then b0 :: utf8_decode r0
      else if b0 <? 224 then
        match r0 with
        | b1 :: r1 => ((b0 - 192) * 64 + (b1 - 128)) :: utf8_decode r1
        | _ => []
        end
      else if b0 <? 240 then
        match r0 with
        | b1 :: b2 :: r2 =>
            ((b0 - 224) * 4096 + (b1 - 128) * 64 + (b2 - 128)) :: utf8_decode r2
        | _ => []
        end
      else
        match r0 with
        | b1 :: b2 :: b3 :: r3 =>
            ((b0 - 240) * 262144 + (b1 - 128) * 4096 + (b2 - 128) * 64 + (b3 - 128))
              :: utf8_decode r3
        | _ => []
        end
  end.

(** [py "..."] is the Python string written as that literal. *)
Definition py (s : string) : pystr :=
  utf8_decode (map byte_val (list_byte_of_string s)).

(** The [utf-8] codec, encoding direction.  Surrogates and values beyond
    U+10FFFF are not encodable ([UnicodeEncodeError]). *)
Definition utf8_encode_char (c : codepoint) : option (list N) :=
  if c <? 128 then Some [c]
  else if c <? 2048 then Some [192 + c / 64; 128 + c mod 64]
  else if (55296 <=? c) && (c <? 57344) then None
  else if c <? 65536 then
    Some [224 + c / 4096; 128 + (c / 64) mod 64; 128 + c mod 64]
  else if c <? 1114112 then
    Some [240 + c / 262144; 128 + (c / 4096) mod 64;
          128 + (c / 64) mod 64; 128 + c mod 64]
  else None.

Fixpoint utf8_encode (s : pystr) : option (list N) :=
  match s with
  | [] => Some []
  | c :: s' =>
      match utf8_encode_char c, utf8_encode s' with
      | Some bs, Some r => Some (bs ++ r)
      | _, _ => None
      end
  end.

(** The byte-order mark that the [utf-8-sig] codec writes first. *)
Definition BOM : list N := [239; 187; 191].

Inductive encoding := Cp949 | Utf8 | Utf8Sig | OtherCodec (name : pystr).

(** [text.encode("utf-8")], and [text.encode("utf-8-sig")] when [sig]. *)
Definition encode_utf8 (sig : bool) (s : pystr) : option bytes :=
  match utf8_encode s with
  | Some bs => Some (map byte_of_N ((if sig then BOM else []) ++ bs))
  | None => None
  end.

Definition pystr_eqb (a b : pystr) : bool := bool_decide (a = b).

(** Longest prefix whose elements satisfy [p], and what follows it. *)
Fixpoint take_while {A} (p : A -> bool) (l : list A) : list A :=
  match l with
  | x :: l' => if p x then x :: take_while p l' else []
  | [] => []
  end.

Fixpoint drop_while {A} (p : A -> bool) (l : list A) : list A :=
  match l with
  | x :: l' => if p x then drop_while p l' else l
  | [] => []
  end.

End Text.
Export Text.

(** ** Exceptions and results *)

Module Exceptions.

(** The exception classes that the calls of the script raise.  All derive
    from [Exception]; [FileNotFoundError] and [IsADirectoryError] derive
    from [OSError]. *)
Inductive exn_class :=
| FileNotFoundError | IsADirectoryError | OSError
| ValueError | AttributeError | KeyError | LookupError
| UnicodeDecodeError | UnicodeEncodeError
| ParserError | EmptyDataError.

Record exn := Exn { exn_cls : exn_class; exn_msg : pystr }.

Definition exn_class_eqb (a b : exn_class) : bool :=
  match a, b with
  | FileNotFoundError, FileNotFoundError | IsADirectoryError, IsADirectoryError
  | OSError, OSError | ValueError, ValueError | AttributeError, AttributeError
  | KeyError, KeyError | LookupError, LookupError
  | UnicodeDecodeError, UnicodeDecodeError | UnicodeEncodeError, UnicodeEncodeError
  | ParserError, ParserError | EmptyDataError, EmptyDataError => true
  | _, _ => false
  end.

(** [isinstance(e, FileNotFoundError)]: the class has no subclass here. *)
Definition is_FileNotFoundError (e : exn) : bool :=
  exn_class_eqb (exn_cls e) FileNotFoundError.

(** The outcome of a call: a value, or an exception on its way up. *)
Inductive result (A : Type) :=
| Returned (a : A)
| Raised (e : exn).
Arguments Returned {A} a.
Arguments Raised {A} e.

Definition result_bind {A B} (r : result A) (k : A -> result B) : result B :=
  match r with
  | Returned a => k a
  | Raised e => Raised e
  end.

Definition raises {A} (r : result A) : bool :=
  match r with Raised _ => true | Returned _ => false end.

(** An [option] read as a result that raises [e] when it is [None]. *)
Definition or_raise {A} (o : option A) (e : exn) : result A :=
  match o with Some a => Returned a | None => Raised e end.

End Exceptions.
Export Exceptions.

(** ** Floating-point numbers *)

Module Float.

(** A Python [float] is an IEEE 754 binary64 number. *)
Definition float := spec_float.
Definition prec : Z := 53.
Definition emax : Z := 1024.

Definition nan : float := S754_nan.

Definition is_nan (f : float) : bool :=
  match f with S754_nan => true | _ => false end.

(** The binary64 number nearest to [m * 10^k] (ties to even), as the
    correctly rounded conversion of [float(str)] gives it; [neg] is the
    sign.  A quotient is rounded from its integer part and the position of
    the remainder, as a division of the IEEE specification is. *)
Definition float_of_decimal (neg : bool) (m : N) (k : Z) : float :=
  match m with
  | N0 => S754_zero neg
  | Npos p =>
      if (0 <=? k)%Z then
        binary_round prec emax neg (p * Z.to_pos (10 ^ k)) 0
      else
        let '(q, e, l) :=
          SFdiv_core_binary prec emax (Zpos p) 0 (10 ^ (- k))%Z 0 in
        binary_round_aux prec emax neg q e l
  end.

(** The integer a float stands for, when it stands for one. *)
Definition float_to_Z (f : float) : option Z :=
  match f with
  | S754_zero _ => Some 0%Z
  | S754_finite s m e =>
      let v := if s then Zneg m else Zpos m in
      if (0 <=? e)%Z then Some (v * 2 ^ e)%Z
      else if (Zpos m mod 2 ^ (- e) =? 0)%Z then Some (v / 2 ^ (- e))%Z
      else None
  | _ => None
  end.

End Float.
Export Float.

(** ** Tabular data *)

Module Frame.

Inductive dtype := object | float64 | int64 | bool_.

Definition dtype_eqb (a b : dtype) : bool :=
  match a, b with
  | object, object | float64, float64 | int64, int64 | bool_, bool_ => true
  | _, _ => false
  end.

(** A column with its cells.  A cell of an [object] column is a string or
    missing ([None], which stands for both [None] and [NaN]); a missing
    cell of a [float64] column is [NaN]. *)
Inductive column :=
| ObjectCol (cells : list (option pystr))
| Float64Col (vals : list float)
| Int64Col (vals : list Z)
| BoolCol (vals : list bool).

Definition col_dtype (c : column) : dtype :=
  match c with
  | ObjectCol _ => object
  | Float64Col _ => float64
  | Int64Col _ => int64
  | BoolCol _ => bool_
  end.

Definition col_len (c : column) : nat :=
  match c with
  | ObjectCol l => length l
  | Float64Col l => length l
  | Int64Col l => length l
  | BoolCol l => length l
  end.

(** A table: the length of its index and its labelled columns, in order. *)
Record DataFrame := mkDataFrame { nrows : nat; cols : list (pystr * column) }.

(** [len(df)] *)
Definition len (df : DataFrame) : Z := Z.of_nat (nrows df).

(** [df.columns] *)
Definition columns (df : DataFrame) : list pystr := map fst (cols df).

(** The invariant of the data model: a label identifies one column, and
    every column has one cell per row. *)
Definition well_formed (df : DataFrame) : Prop :=
  NoDup (columns df) /\ Forall (fun c => col_len (snd c) = nrows df) (cols df).

(** A [Series] of integers labelled by column names, such as the one
    [df.isnull().sum()] yields. *)
Definition Series := list (pystr * Z).

End Frame.
Export Frame.

(** ** Paths, files and the console *)

Module World.

(** A path, as [PurePosixPath.parts]: the root, when there is one, is the
    first part ("/"). *)
Definition path := list pystr.

Definition slash : codepoint := 47.

(** [str(path)] *)
Fixpoint join_parts (ps : list pystr) : pystr :=
  match ps with
  | [] => []
  | [p] => p
  | p :: ps' => p ++ slash :: join_parts ps'
  end.

Definition path_str (p : path) : pystr :=
  match p with
  | [] => [46]
  | r :: ps => if pystr_eqb r [slash] || pystr_eqb r [slash; slash]
               then r ++ join_parts ps else join_parts p
  end.

(** Splitting at every "/" . *)
Fixpoint split_slash (cur : pystr) (s : pystr) : list pystr :=
  match s with
  | [] => [rev cur]
  | c :: s' => if c =? slash then rev cur :: split_slash [] s'
               else split_slash (c :: cur) s'
  end.

(** The parts of a path written as a string: empty parts and "." are
    dropped; a leading "/" is the root (exactly two leading slashes are
    the root "//"). *)
Definition parse_path (s : pystr) : path :=
  let parts :=
    filter (fun p => negb (pystr_eqb p []) && negb (pystr_eqb p [46]))
           (split_slash [] s) in
  match s with
  | c0 :: rest =>
      if c0 =? slash then
        match rest with
        | c1 :: rest' =>
            if c1 =? slash then
              match rest' with
              | c2 :: _ => if c2 =? slash then [slash] :: parts
                           else [slash; slash] :: parts
              | [] => [slash; slash] :: parts
              end
            else [slash] :: parts
        | [] => [slash] :: parts
        end
      else parts
  | [] => parts
  end.

Definition is_absolute (p : path) : bool :=
  match p with
  | r :: _ => pystr_eqb r [slash] || pystr_eqb r [slash; slash]
  | [] => false
  end.

(** [base / s]: an absolute right operand replaces the base. *)
Definition path_join (base : path) (s : pystr) : path :=
  let p := parse_path s in
  if is_absolute p then p else base ++ p.

(** [path.parent]: the root and the empty path are their own parent. *)
Definition parent (p : path) : path :=
  match p with
  | [r] => if is_absolute p then p else []
  | _ => removelast p
  end.

(** [path.name] *)
Definition name (p : path) : pystr :=
  if is_absolute p && (length p =? 1)%nat then [] else List.last p [].

(** One [print] call: the pieces of its f-string, the formatted values
    kept as values. *)
Inductive fragment :=
| Lit (s : pystr)
| FStr (s : pystr)
| FInt (n : Z)
| FPath (p : path)
| FExn (e : exn)
| FSeries (s : Series).

Definition line := list fragment.

Record world := mkWorld {
  files : gmap path bytes;
  directories : gset path;
  console : list line
}.

(** Computations of the script: they read and change the world and
    return or raise. *)
Definition M (A : Type) : Type := world -> result A * world.

#[global] Instance M_ret : MRet M := fun A a w => (Returned a, w).

#[global] Instance M_bind : MBind M := fun A B k m w =>
  match m w with
  | (Returned a, w') => k a w'
  | (Raised e, w') => (Raised e, w')
  end.

Definition raise {A} (e : exn) : M A := fun w => (Raised e, w).

Definition lift {A} (r : result A) : M A := fun w => (r, w).

(** [try: body  except <any>: handler] *)
Definition try_except {A} (body : M A) (handler : exn -> M A) : M A :=
  fun w =>
    match body w with
    | (Returned a, w') => (Returned a, w')
    | (Raised e, w') => handler e w'
    end.

(** The world after more lines have gone to the console. *)
Definition printed (w : world) (ls : list line) : world :=
  {| files := files w; directories := directories w;
     console := console w ++ ls |}.

Definition print (l : line) : M unit :=
  fun w => (Returned tt, printed w [l]).

(** Opening a file for reading and taking its bytes. *)
Definition read_file (p : path) : M bytes :=
  fun w =>
    match files w !! p with
    | Some b => (Returned b, w)
    | None =>
        if bool_decide (p ∈ directories w)
        then (Raised (Exn IsADirectoryError (path_str p)), w)
        else (Raised (Exn FileNotFoundError (path_str p)), w)
    end.

(** Creating or overwriting a file, as [to_csv] does: the parent
    directory has to exist. *)
Definition write_file (p : path) (b : bytes) : M unit :=
  fun w =>
    if negb (bool_decide (parent p ∈ directories w))
    then (Raised (Exn OSError (path_str (parent p))), w)
    else if bool_decide (p ∈ directories w)
    then (Raised (Exn IsADirectoryError (path_str p)), w)
    else (Returned tt,
          {| files := <[p := b]> (files w); directories := directories w;
             console := console w |}).

End World.
Export World.

(** ** What the platform provides *)

Record Runtime := mkRuntime {
(** [Py_UNICODE_TODECIMAL]: the value of a decimal digit character. *)
unicode_decimal : codepoint -> option N;
(** [Py_UNICODE_ISSPACE] *)
unicode_space : codepoint -> bool;
(** [repr] of a float *)
float_repr : float -> pystr;
(** the CSV dialect writer: header and records to text *)
csv_write : list (list pystr) -> pystr;
(** the pandas CSV parser: bytes of a file, decoded with an encoding *)
csv_parse : bytes -> encoding -> result DataFrame;
(** the codecs other than UTF-8, encoding direction *)
codec_encode : encoding -> pystr -> option bytes;
(** [__file__], the location of the script *)
script_file : path
}.

(** The facts about the Unicode database that the script relies on: decimal
    values are digits, the decimal characters of ASCII are "0" to "9", and
    no decimal character is white space. *)
Definition unicode_database_ok (R : Runtime) : Prop :=
  (forall c d, unicode_decimal R c = Some d -> d < 10) /\
  (forall c, c < 128 ->
     unicode_decimal R c = if (48 <=? c) && (c <=? 57) then Some (c - 48) else None) /\
  (forall c d, unicode_decimal R c = Some d -> unicode_space R c = false).

(** ** Python built-ins *)

Module Builtins.

(** [s.replace(old, new)] for a pattern [old] of one character. *)
Definition str_replace1 (old : codepoint) (new : pystr) (s : pystr) : pystr :=
  flat_map (fun c => if c =? old then new else [c]) s.

Definition comma : codepoint := 44.
Definition underscore : codepoint := 95.

(** [Py_ISSPACE]: the white space of ASCII. *)
Definition Py_ISSPACE (c : N) : bool :=
  ((9 <=? c) && (c <=? 13)) || (c =? 32).

(** [Py_ISDIGIT] *)
Definition is_digit (c : N) : bool := (48 <=? c) && (c <=? 57).

Definition digit_val (c : N) : N := c - 48.

(** The number written by a run of ASCII digits. *)
Definition digits_value (ds : list N) : N :=
  fold_left (fun acc c => 10 * acc + digit_val c) ds 0.

(** [Py_TOLOWER] *)
Definition to_lower (c : N) : N :=
  if (65 <=? c) && (c <=? 90) then c + 32 else c.

Definition strip (s : list N) : list N :=
  rev (drop_while Py_ISSPACE (rev (drop_while Py_ISSPACE s))).

(** An optional sign: whether it is "-", and what follows. *)
Definition parse_sign (s : list N) : bool * list N :=
  match s with
  | c :: r => if c =? 45 then (true, r)
              else if c =? 43 then (false, r)
              else (false, s)
  | [] => (false, s)
  end.

(** Underscores of a numeric literal, for [float]: each one stands
    between two digits; they are removed. *)
Fixpoint remove_underscores (prev : N) (s : list N) : option (list N) :=
  match s with
  | [] => if prev =? underscore then None else Some []
  | c :: s' =>
      if c =? underscore then
        if is_digit prev then remove_underscores c s' else None
      else if (prev =? underscore) && negb (is_digit c) then None
      else option_map (cons c) (remove_underscores c s')
  end.

(** "inf", "infinity" and "nan", signed, in any case of letters. *)
Definition parse_inf_or_nan (s : list N) : option float :=
  let '(neg, r) := parse_sign s in
  let w := map to_lower r in
  if pystr_eqb w (py "inf") || pystr_eqb w (py "infinity")
  then Some (S754_infinity neg)
  else if pystr_eqb w (py "nan") then Some S754_nan
  else None.

(** The exponent part, when "e" or "E" is followed by an optionally
    signed run of digits: its value and what follows it. *)
Definition parse_exponent (s : list N) : Z * list N :=
  match s with
  | c :: r =>
      if (c =? 101) || (c =? 69) then
        let '(eneg, r') := parse_sign r in
        match take_while is_digit r' with
        | [] => (0%Z, s)
        | ed =>
            let v := Z.of_N (digits_value ed) in
            ((if eneg then - v else v)%Z, drop_while is_digit r')
        end
      else (0%Z, s)
  | [] => (0%Z, s)
  end.

(** A decimal literal: sign, digits with an optional point (a digit on
    one side at least), optional exponent, and nothing after it. *)
Definition parse_decimal (s : list N) : option float :=
  let '(neg, r) := parse_sign s in
  let ip := take_while is_digit r in
  let r1 := drop_while is_digit r in
  let '(fp, r2) :=
    match r1 with
    | c :: r' => if c =? 46 then (take_while is_digit r', drop_while is_digit r')
                 else ([], r1)
    | [] => ([], r1)
    end in
  match ip ++ fp with
  | [] => None
  | ds =>
      let '(e, r3) := parse_exponent r2 in
      match r3 with
      | [] => Some (float_of_decimal neg (digits_value ds)
                                     (e - Z.of_nat (length fp)))
      | _ => None
      end
  end.

Definition float_of_ascii (s : list N) : option float :=
  match parse_decimal s with
  | Some f => Some f
  | None => parse_inf_or_nan s
  end.

(** Digits and the rest of an [int] literal: single underscores between
    digits; [prev] is the character before. *)
Fixpoint scan_int_digits (prev : N) (acc : N) (s : list N) : option (N * list N) :=
  match s with
  | [] => if prev =? underscore then None else Some (acc, [])
  | c :: s' =>
      if is_digit c then scan_int_digits c (10 * acc + digit_val c) s'
      else if c =? underscore then
        if prev =? underscore then None else scan_int_digits c acc s'
      else if prev =? underscore then None
      else Some (acc, s)
  end.

(** The matches of [\d+] from left to right, given the test for [\d]:
    each match is a longest run; [cur] is the run being read, reversed. *)
Fixpoint findall_runs (d : codepoint -> bool) (cur : pystr) (s : pystr) : list pystr :=
  match s with
  | [] => match cur with [] => [] | _ => [rev cur] end
  | c :: s' =>
      if d c then findall_runs d (c :: cur) s'
      else match cur with
           | [] => findall_runs d [] s'
           | _ => rev cur :: findall_runs d [] s'
           end
  end.

(** The values the script passes to [convert_age_group]. *)
Inductive pyobj :=
| PyNone
| PyFloat (f : float)
| PyStr (s : pystr)
| PyInt (z : Z)
| PyBool (b : bool).

(** [pd.isna] of a scalar *)
Definition isna (x : pyobj) : bool :=
  match x with
  | PyNone => true
  | PyFloat f => is_nan f
  | _ => false
  end.

(** [str(n)] of an integer *)
Definition int_str (z : Z) : pystr :=
  py (DecimalString.NilZero.string_of_int (Z.to_int z)).

Section WithRuntime.
Context (R : Runtime).

(** A character is matched by [\d] when the database gives it a
    decimal value. *)
Definition is_decimal (c : codepoint) : bool :=
  match unicode_decimal R c with Some _ => true | None => false end.

(** What [float] and [int] do first with a [str]: white space and
    decimal digits beyond ASCII become " " and ASCII digits, any other
    such character becomes "?". *)
Definition ascii_transform (s : pystr) : list N :=
  map (fun ch =>
         if ch <? 127 then ch
         else if unicode_space R ch then 32
         else match unicode_decimal R ch with
              | Some d => 48 + d
              | None => 63
              end) s.

(** [float(s)]; [None] is [ValueError]. *)
Definition py_float (s : pystr) : option float :=
  match strip (ascii_transform s) with
  | [] => None
  | a => match remove_underscores 0 a with
         | Some b => float_of_ascii b
         | None => None
         end
  end.

(** [int(s)]; [None] is [ValueError]. *)
Definition py_int (s : pystr) : option Z :=
  let '(neg, r) := parse_sign (drop_while Py_ISSPACE (ascii_transform s)) in
  match r with
  | c :: _ =>
      if is_digit c then
        match scan_int_digits 0 0 r with
        | Some (v, rest) =>
            match drop_while Py_ISSPACE rest with
            | [] => Some (if neg then - Z.of_N v else Z.of_N v)%Z
            | _ => None
            end
        | None => None
        end
      else None
  | [] => None
  end.

(** [re.findall(r'\d+', s)] *)
Definition re_findall_digits (s : pystr) : list pystr :=
  findall_runs is_decimal [] s.

(** [str(x)] *)
Definition py_str (x : pyobj) : pystr :=
  match x with
  | PyNone => py "None"
  | PyFloat f => float_repr R f
  | PyStr s => s
  | PyInt z => int_str z
  | PyBool b => if b then py "True" else py "False"
  end.

End WithRuntime.

End Builtins.
Export Builtins.

(** ** pandas operations *)

Module Pandas.

(** [df[col]]: a [Series] when one column carries the label, a
    [DataFrame] of them when several do. *)
Inductive selection :=
| OneSeries (c : column)
| SubFrame (cs : list (pystr * column)).

Definition has_label (col : pystr) (nc : pystr * column) : bool :=
  pystr_eqb (fst nc) col.

Definition getitem (df : DataFrame) (col : pystr) : result selection :=
  match filter (fun nc => has_label col nc = true) (cols df) with
  | [] => Raised (Exn KeyError col)
  | [nc] => Returned (OneSeries (snd nc))
  | cs => Returned (SubFrame cs)
  end.

(** [.dtype], an attribute of a [Series] only *)
Definition dtype_of (sel : selection) : result dtype :=
  match sel with
  | OneSeries c => Returned (col_dtype c)
  | SubFrame _ =>
      Raised (Exn AttributeError (py "'DataFrame' object has no attribute 'dtype'"))
  end.

(** [.str.replace(old, new)], element by element; a missing cell stays
    missing. *)
Definition str_replace (old : codepoint) (new : pystr) (sel : selection)
  : result column :=
  match sel with
  | OneSeries (ObjectCol cells) =>
      Returned (ObjectCol (map (option_map (str_replace1 old new)) cells))
  | OneSeries _ =>
      Raised (Exn AttributeError (py "Can only use .str accessor with string values!"))
  | SubFrame _ =>
      Raised (Exn AttributeError (py "'DataFrame' object has no attribute 'str'"))
  end.

(** [df[col] = c]: the column of that label is replaced where it stands;
    a new label is added at the end. *)
Definition setitem (df : DataFrame) (col : pystr) (c : column) : DataFrame :=
  if existsb (has_label col) (cols df)
  then mkDataFrame (nrows df)
         (map (fun nc => if has_label col nc then (fst nc, c) else nc) (cols df))
  else mkDataFrame (nrows df) (cols df ++ [(col, c)]).

(** [df.select_dtypes(include=[dt])] *)
Definition select_dtypes (dt : dtype) (df : DataFrame) : DataFrame :=
  mkDataFrame (nrows df)
    (filter (fun nc => dtype_eqb (col_dtype (snd nc)) dt = true) (cols df)).

(** [df.isnull()]: the table of the same shape that marks the missing
    cells. *)
Definition col_isnull (c : column) : list bool :=
  match c with
  | ObjectCol cells => map (fun x => match x with None => true | Some _ => false end) cells
  | Float64Col vals => map is_nan vals
  | Int64Col vals => map (fun _ => false) vals
  | BoolCol vals => map (fun _ => false) vals
  end.

Definition isnull (df : DataFrame) : DataFrame :=
  mkDataFrame (nrows df) (map (fun nc => (fst nc, BoolCol (col_isnull (snd nc)))) (cols df)).

(** [.sum()] of a table of booleans: per column, [True] counts 1. *)
Definition bool_sum (l : list bool) : Z :=
  fold_right (fun b acc => ((if b : bool then 1 else 0) + acc)%Z) 0%Z l.

Definition col_sum (c : column) : Z :=
  match c with
  | BoolCol vals => bool_sum vals
  | Int64Col vals => fold_right Z.add 0%Z vals
  | _ => 0%Z
  end.

Definition sum (df : DataFrame) : Series :=
  map (fun nc => (fst nc, col_sum (snd nc))) (cols df).

(** [s.any()] *)
Definition any (s : Series) : bool :=
  existsb (fun e => negb (snd e =? 0)%Z) s.

(** [s[s > 0]] *)
Definition positive_entries (s : Series) : Series :=
  filter (fun e => (0 <? snd e)%Z = true) s.

(** The float of an integer and of a boolean, for [astype]. *)
Definition float_of_Z (z : Z) : float := binary_normalize prec emax z 0 false.

Definition float_of_bool (b : bool) : float := float_of_Z (if b then 1 else 0).

Section WithRuntime.
Context (R : Runtime).

(** One cell of [.astype(float)] on an [object] column: [float(s)] for
    a string, [NaN] for a missing cell. *)
Definition cell_to_float (x : option pystr) : result float :=
  match x with
  | None => Returned nan
  | Some s =>
      or_raise (py_float R s)
               (Exn ValueError (py "could not convert string to float: " ++ s))
  end.

Fixpoint cells_to_float (cells : list (option pystr)) : result (list float) :=
  match cells with
  | [] => Returned []
  | x :: cells' =>
      result_bind (cell_to_float x) (fun f =>
      result_bind (cells_to_float cells') (fun fs =>
      Returned (f :: fs)))
  end.

(** [.astype(float)] *)
Definition astype_float (c : column) : result column :=
  match c with
  | ObjectCol cells =>
      result_bind (cells_to_float cells) (fun fs => Returned (Float64Col fs))
  | Float64Col vals => Returned (Float64Col vals)
  | Int64Col vals => Returned (Float64Col (map float_of_Z vals))
  | BoolCol vals => Returned (Float64Col (map float_of_bool vals))
  end.

(** The text of one cell in a CSV file; a missing cell is empty. *)
Definition cell_text (c : column) (i : nat) : pystr :=
  match c with
  | ObjectCol cells => match nth i cells None with Some s => s | None => [] end
  | Float64Col vals =>
      let f := nth i vals nan in if is_nan f then [] else float_repr R f
  | Int64Col vals => int_str (nth i vals 0%Z)
  | BoolCol vals => if nth i vals false then py "True" else py "False"
  end.

(** The records [to_csv] writes: the header, then one record per row;
    with [index] the row labels come first. *)
Definition to_csv_records (df : DataFrame) (index : bool) : list (list pystr) :=
  ((if index then [[]] else []) ++ columns df)
  :: map (fun i =>
            (if index then [int_str (Z.of_nat i)] else [])
            ++ map (fun nc => cell_text (snd nc) i) (cols df))
         (seq 0 (nrows df)).

(** [text.encode(encoding)] *)
Definition encode (enc : encoding) (s : pystr) : option bytes :=
  match enc with
  | Utf8 => encode_utf8 false s
  | Utf8Sig => encode_utf8 true s
  | _ => codec_encode R enc s
  end.

(** [df.to_csv(p, index=index, encoding=enc)]: the file is opened, which
    creates or empties it, and the encoded text is written to it. *)
Definition to_csv (df : DataFrame) (p : path) (index : bool) (enc : encoding)
  : M unit :=
  write_file p [] ;;
  match encode enc (csv_write R (to_csv_records df index)) with
  | Some b => write_file p b
  | None => raise (Exn UnicodeEncodeError [])
  end.

(** [pd.read_csv(p, encoding=enc)] *)
Definition read_csv (p : path) (enc : encoding) : M DataFrame :=
  b ← read_file p;
  lift (csv_parse R b enc).

End WithRuntime.

End Pandas.

(** ** The script *)

(** The values of the summary mapping: a number or a series over periods. *)
Inductive summary_value :=
| Scalar (f : float)
| Trend (s : list (pystr * float)).

Definition newline : codepoint := 10.

(** The body of the loop of [clean_population_data] (lines 69-74), and the
    loop (lines 67-68) with the table it updates threaded through. *)
Fixpoint for_each {A S} (l : list A) (s : S) (body : S -> A -> result S) : result S :=
  match l with
  | [] => Returned s
  | x :: l' => result_bind (body s x) (fun s' => for_each l' s' body)
  end.

Section Script.
Context (R : Runtime).

Definition PROJECT_ROOT : path := parent (parent (script_file R)).
Definition DATA_DIR : path := path_join PROJECT_ROOT (py "data").

Definition load_kosis_csv (filename : pystr) (encoding : encoding)
  : M (option DataFrame) :=
  let filepath := path_join DATA_DIR filename in
  try_except
    (df ← Pandas.read_csv R filepath encoding;
     print [Lit (py "✓ "); FStr filename; Lit (py " 로드 완료 (");
            FInt (len df); Lit (py " rows)")] ;;
     mret (Some df))
    (fun e =>
       if is_FileNotFoundError e then
         print [Lit (py "✗ "); FStr filename; Lit (py " 파일을 찾을 수 없습니다.")] ;;
         print [Lit (py "   경로: "); FPath filepath] ;;
         mret None
       else
         print [Lit (py "✗ "); FStr filename; Lit (py " 로드 중 오류: "); FExn e] ;;
         mret None).

Definition convert_column (df : DataFrame) (col : pystr) : result DataFrame :=
  result_bind (result_bind (Pandas.getitem df col) Pandas.dtype_of) (fun dt =>
  if dtype_eqb dt object then
    match
      result_bind (Pandas.getitem df col) (fun sel =>
      result_bind (Pandas.str_replace comma [] sel) (fun stripped =>
      result_bind (Pandas.astype_float R stripped) (fun converted =>
      Returned (Pandas.setitem df col converted))))
    with
    | Returned df' => Returned df'
    | Raised _ => Returned df
    end
  else Returned df).

Definition convert_text_columns (df : DataFrame) : result DataFrame :=
  let numeric_columns := columns (Pandas.select_dtypes object df) in
  for_each numeric_columns df convert_column.

Definition clean_population_data (df : option DataFrame) : M (option DataFrame) :=
  match df with
  | None => mret None
  | Some df =>
      print [Lit (newline :: py "[인구 데이터 정제 중...]")] ;;
      df ← lift (convert_text_columns df);
      let missing := Pandas.sum (Pandas.isnull df) in
      (if Pandas.any missing
       then print [Lit (py "  결측치 발견: ");
                   FSeries (Pandas.positive_entries missing)]
       else mret tt) ;;
      print [Lit (py "✓ 인구 데이터 정제 완료")] ;;
      mret (Some df)
  end.

Definition clean_employment_data (df : option DataFrame) : M (option DataFrame) :=
  match df with
  | None => mret None
  | Some df =>
      print [Lit (newline :: py "[고용 데이터 정제 중...]")] ;;
      let it_keywords :=
        [py "소프트웨어"; py "컴퓨터"; py "정보"; py "데이터";
         py "네트워크"; py "시스템"; py "프로그래머"; py "개발"] in
      print [Lit (py "✓ 고용 데이터 정제 완료")] ;;
      mret (Some df)
  end.

Definition create_summary_statistics (population_df employment_df : option DataFrame)
  : M (gmap pystr summary_value) :=
  print [Lit (newline :: py "[요약 통계 생성 중...]")] ;;
  let summary : gmap pystr summary_value := ∅ in
  let summary :=
    match population_df with Some _ => summary | None => summary end in
  let summary :=
    match employment_df with Some _ => summary | None => summary end in
  print [Lit (py "✓ 요약 통계 생성 완료")] ;;
  mret summary.

Definition save_processed_data (df : option DataFrame) (filename : pystr) : M unit :=
  match df with
  | None => mret tt
  | Some df =>
      let output_path := path_join DATA_DIR (py "processed_" ++ filename) in
      Pandas.to_csv R df output_path false Utf8Sig ;;
      print [Lit (py "✓ 저장 완료: "); FPath output_path]
  end.

Definition convert_age_group (age_str : pyobj) : result (option Z) :=
  if isna age_str then Returned None
  else
    let numbers := re_findall_digits R (py_str R age_str) in
    match numbers with
    | first :: _ =>
        result_bind
          (or_raise (py_int R first)
                    (Exn ValueError (py "invalid literal for int() with base 10")))
          (fun n => Returned (Some n))
    | [] => Returned None
    end.

End Script.

(** ** Reference notions

    What the statements below compare the script with.  These are defined
    from the meaning of the words, not from the script. *)

Module Reference.

(** Whether the cell of row [i] is missing. *)
Definition missing_at (c : column) (i : nat) : bool :=
  match c with
  | ObjectCol cells => match cells !! i with Some None => true | _ => false end
  | Float64Col vals => match vals !! i with Some f => is_nan f | None => false end
  | Int64Col _ => false
  | BoolCol _ => false
  end.

(** The number of rows whose cell is missing. *)
Definition count_missing (c : column) : nat :=
  length (filter (fun i => missing_at c i = true) (seq 0 (col_len c))).

(** The number that a sequence of ASCII digits writes in base ten. *)
Fixpoint decimal_number (ds : list N) : N :=
  match ds with
  | [] => 0
  | d :: r => (d - 48) * 10 ^ N.of_nat (length r) + decimal_number r
  end.

(** Digits in groups separated by commas: only digits and commas, one
    digit at least. *)
Definition grouped_digits (s : pystr) : Prop :=
  Forall (fun c => is_digit c = true \/ c = comma) s /\
  Exists (fun c => is_digit c = true) s.

(** The integer such a text denotes: the number its digits write. *)
Definition denoted_integer (s : pystr) : N :=
  decimal_number (filter (fun c => is_digit c = true) s).

(** The number that a run of decimal characters of the Unicode database
    writes in base ten. *)
Fixpoint run_number (R : Runtime) (run : pystr) : N :=
  match run with
  | [] => 0
  | c :: r =>
      default 0 (unicode_decimal R c) * 10 ^ N.of_nat (length r) + run_number R r
  end.

(** The lines about missing values that a table calls for: one line with
    the columns that have missing cells and their counts, when there is
    such a column. *)
Definition missing_report (df : DataFrame) : list line :=
  let counts :=
    filter (fun e => (0 < snd e)%Z)
           (map (fun nc => (fst nc, Z.of_nat (count_missing (snd nc)))) (cols df)) in
  match counts with
  | [] => []
  | _ => [[Lit (py "  결측치 발견: "); FSeries counts]]
  end.

(** A text column after the conversion pass: the float column of its
    cells when every cell converts, the column itself when one does not.
    Other columns are not touched. *)
Definition converted_column (R : Runtime) (c : column) : column :=
  match c with
  | ObjectCol cells =>
      match Pandas.cells_to_float R (map (option_map (str_replace1 comma [])) cells) with
      | Returned fs => Float64Col fs
      | Raised _ => c
      end
  | _ => c
  end.

(** One round of the loop on the columns: the column of that label is
    converted, the others stay. *)
Definition convert_labelled (R : Runtime) (col : pystr) (l : list (pystr * column))
  : list (pystr * column) :=
  map (fun nc => if Pandas.has_label col nc
                 then (fst nc, converted_column R (snd nc)) else nc) l.

Definition converted_table (R : Runtime) (df : DataFrame) : DataFrame :=
  mkDataFrame (nrows df) (map (fun nc => (fst nc, converted_column R (snd nc))) (cols df)).

End Reference.
Export Reference.

(** ** A runtime and data for the examples *)

Module Sample.

(** The Unicode database cut down to Basic Latin, the no-break space and
    the Arabic-Indic digits. *)
Definition sample_decimal (c : codepoint) : option N :=
  if is_digit c then Some (c - 48)
  else if (1632 <=? c) && (c <=? 1641) then Some (c - 1632)
  else None.

Definition sample_space (c : codepoint) : bool :=
  Py_ISSPACE c || ((28 <=? c) && (c <=? 31)) || (c =? 133) || (c =? 160).

(** [repr] on floats that are integers; other floats are not used. *)
Definition sample_float_repr (f : float) : pystr :=
  match float_to_Z f with
  | Some z => int_str z ++ py ".0"
  | None => match f with
            | S754_infinity s => if s then py "-inf" else py "inf"
            | _ => py "nan"
            end
  end.

(** Fields joined by commas, records ended by a line feed; a field that
    holds a comma, a quote or a line break is quoted, its quotes doubled. *)
Definition quote : codepoint := 34.

Definition sample_csv_field (f : pystr) : pystr :=
  if existsb (fun c => (c =? comma) || (c =? quote) || (c =? newline) || (c =? 13)) f
  then quote :: flat_map (fun c => if c =? quote then [quote; quote] else [c]) f ++ [quote]
  else f.

Definition sample_csv_write (records : list (list pystr)) : pystr :=
  flat_map (fun fields =>
              match map sample_csv_field fields with
              | [] => [newline]
              | f :: fs => f ++ flat_map (fun x => comma :: x) fs ++ [newline]
              end) records.

Fixpoint split_lines (cur : list N) (bs : list N) : list (list N) :=
  match bs with
  | [] => match cur with [] => [] | _ => [rev cur] end
  | b :: bs' => if b =? newline then rev cur :: split_lines [] bs'
                else split_lines (b :: cur) bs'
  end.

(** A parser for files of one text column: the header line, then one
    cell per line.  An empty file is an error of the parser. *)
Definition sample_csv_parse (b : bytes) (enc : encoding) : result DataFrame :=
  match split_lines [] (map byte_val b) with
  | [] => Raised (Exn EmptyDataError (py "No columns to parse from file"))
  | header :: rows =>
      Returned (mkDataFrame (length rows)
                  [(utf8_decode header,
                    ObjectCol (map (fun r => Some (utf8_decode r)) rows))])
  end.

Definition sample_runtime : Runtime :=
  {| unicode_decimal := sample_decimal;
     unicode_space := sample_space;
     float_repr := sample_float_repr;
     csv_write := sample_csv_write;
     csv_parse := sample_csv_parse;
     codec_encode := fun _ _ => None;
     script_file := [[slash]; py "srv"; py "project"; py "scripts";
                     py "data_preprocessing.py"] |}.

(** A population table as the source publishes it. *)
Definition population : DataFrame :=
  mkDataFrame 2
    [(py "시점", Int64Col [2020; 2021]%Z);
     (py "연령별(5세)", ObjectCol [Some (py "15-19세"); Some (py "20-24세")]);
     (py "인구 (명)", ObjectCol [Some (py "2,500,000"); Some (py "2,600,000")])].

(** The same with a cell that is not a number and a missing cell. *)
Definition population_with_gaps : DataFrame :=
  mkDataFrame 3
    [(py "시점", Int64Col [2020; 2021; 2022]%Z);
     (py "인구 (명)", ObjectCol [Some (py "2,500,000"); Some (py "-"); Some (py "2,700,000")]);
     (py "비율", ObjectCol [Some (py "1,5"); None; Some (py "3")])].

Definition data_dir : path := [[slash]; py "srv"; py "project"; py "data"].

(** A world with the data directory and one raw file in it. *)
Definition sample_world : world :=
  {| files := {[ data_dir ++ [py "kosis_population.csv"] :=
                 map byte_of_N (default [] (utf8_encode
                   (py "name" ++ [newline] ++ py "a" ++ [newline] ++ py "b" ++ [newline]))) ]};
     directories := {[ data_dir ]};
     console := [] |}.

End Sample.


(** ** The pipeline and the sample generator *)

(** [df.head()]: the first five rows. *)
Definition col_head (n : nat) (c : column) : column :=
  match c with
  | ObjectCol cells => ObjectCol (take n cells)
  | Float64Col vals => Float64Col (take n vals)
  | Int64Col vals => Int64Col (take n vals)
  | BoolCol vals => BoolCol (take n vals)
  end.

Definition head (df : DataFrame) : DataFrame :=
  mkDataFrame (Nat.min 5 (nrows df))
    (map (fun nc => (fst nc, col_head 5 (snd nc))) (cols df)).

(** [f"{df.shape}"]: the pair of the numbers of rows and of columns. *)
Definition shape_text (df : DataFrame) : line :=
  [Lit (py "("); FInt (len df); Lit (py ", ");
   FInt (Z.of_nat (length (cols df))); Lit (py ")")].

(** ["=" * 60] *)
Definition rule : pystr := repeat 61 60.

Section Pipeline.
Context (R : Runtime).
(** [str(df)], the text [print] shows for a table *)
Context (frame_str : DataFrame -> pystr).

Definition preview (title : pystr) (clean : option DataFrame) : M unit :=
  match clean with
  | Some df =>
      print [Lit (newline :: title)] ;;
      print [FStr (frame_str (head df))] ;;
      print (Lit (newline :: py "형태: ") :: shape_text df)
  | None => mret tt
  end.

Definition main : M unit :=
  print [Lit rule] ;;
  print [Lit (py "KOSIS 데이터 전처리 시작")] ;;
  print [Lit rule] ;;
  print [Lit (newline :: py "[1단계: 데이터 로드]")] ;;
  population_df ← load_kosis_csv R (py "kosis_population.csv") Cp949;
  employment_df ← load_kosis_csv R (py "kosis_employment.csv") Cp949;
  regional_df ← load_kosis_csv R (py "kosis_regional_population.csv") Cp949;
  print [Lit (newline :: py "[2단계: 데이터 정제]")] ;;
  population_clean ← clean_population_data R population_df;
  employment_clean ← clean_employment_data employment_df;
  print [Lit (newline :: py "[3단계: 요약 통계]")] ;;
  summary ← create_summary_statistics population_clean employment_clean;
  print [Lit (newline :: py "[4단계: 처리된 데이터 저장]")] ;;
  save_processed_data R population_clean (py "population.csv") ;;
  save_processed_data R employment_clean (py "employment.csv") ;;
  print [Lit (newline :: rule)] ;;
  print [Lit (py "전처리 완료!")] ;;
  print [Lit rule] ;;
  preview (py "[인구 데이터 미리보기]") population_clean ;;
  preview (py "[고용 데이터 미리보기]") employment_clean.

End Pipeline.

(** The random number generator of numpy: its state, and
    [np.random.randint(low, high)], which draws an integer and moves the
    state on. *)
Record Generator := mkGenerator {
  gen_state : Type;
  randint : gen_state -> Z -> Z -> Z * gen_state
}.

(** What [randint] promises: a draw lies in [low, high). *)
Definition generator_ok (G : Generator) : Prop :=
  forall s low high, (low < high)%Z ->
    (low <= fst (randint G s low high) < high)%Z.

(** One row of a sample table: the dictionary of a year, a category and
    the number drawn for them. *)
Definition sample_row : Type := Z * pystr * Z.

(** [pd.DataFrame(rows)] for rows that are dictionaries with the keys
    [k1], [k2], [k3], in that order; no row gives the table without
    columns. *)
Definition DataFrame_of_rows (k1 k2 k3 : pystr) (rows : list sample_row) : DataFrame :=
  match rows with
  | [] => mkDataFrame 0 []
  | _ =>
      mkDataFrame (length rows)
        [(k1, Int64Col (map (fun r => fst (fst r)) rows));
         (k2, ObjectCol (map (fun r => Some (snd (fst r))) rows));
         (k3, Int64Col (map (fun r => snd r) rows))]
  end.

Section SampleData.
Context (R : Runtime) (G : Generator).

(** The inner loop: one draw and one row for each category of a year. *)
Fixpoint for_categories (low high : Z) (year : Z) (categories : list pystr)
    (st : gen_state G * list sample_row) : gen_state G * list sample_row :=
  match categories with
  | [] => st
  | category :: rest =>
      let '(n, s') := randint G (fst st) low high in
      for_categories low high year rest (s', snd st ++ [(year, category, n)])
  end.

(** The outer loop over the years. *)
Fixpoint for_years (low high : Z) (years : list Z) (categories : list pystr)
    (st : gen_state G * list sample_row) : gen_state G * list sample_row :=
  match years with
  | [] => st
  | year :: rest =>
      for_years low high rest categories (for_categories low high year categories st)
  end.

Definition sample_years : list Z := seqZ 2015 10.
Definition age_groups : list pystr := [py "15-19"; py "20-24"; py "25-29"; py "30-34"].
Definition jobs : list pystr :=
  [py "소프트웨어개발자"; py "데이터분석가"; py "정보보안전문가"].

Definition create_sample_data (s : gen_state G) : M (gen_state G) :=
  print [Lit (newline :: py "[샘플 데이터 생성]")] ;;
  print [Lit (py "실제 KOSIS 데이터가 없을 경우 테스트용으로 사용")] ;;
  let '(s1, sample_population) :=
    for_years 2000000 3500000 sample_years age_groups (s, []) in
  let pop_df := DataFrame_of_rows (py "연도") (py "연령대") (py "인구수") sample_population in
  Pandas.to_csv R pop_df (path_join (DATA_DIR R) (py "sample_population.csv"))
                false Utf8Sig ;;
  print [Lit (py "✓ sample_population.csv 생성")] ;;
  let '(s2, sample_employment) :=
    for_years 50000 200000 sample_years jobs (s1, []) in
  let emp_df := DataFrame_of_rows (py "연도") (py "직업") (py "취업자수") sample_employment in
  Pandas.to_csv R emp_df (path_join (DATA_DIR R) (py "sample_employment.csv"))
                false Utf8Sig ;;
  print [Lit (py "✓ sample_employment.csv 생성")] ;;
  print [Lit (newline :: py "샘플 데이터로 테스트해보세요!")] ;;
  mret s2.

End SampleData.

(** ** References for the properties of the pipeline *)

(** The worlds agree on every file but those at the paths [ps], and on the
    directories. *)
Definition same_files_except (ps : list path) (w w' : world) : Prop :=
  directories w' = directories w /\
  forall p, p ∉ ps -> files w' !! p = files w !! p.

(** The message of the [AttributeError] that a table raises when its
    [dtype] is asked for. *)
Definition dtype_message : pystr := py "'DataFrame' object has no attribute 'dtype'".

(** A text with nothing to read in it: commas and white space only, or
    nothing at all. *)
Definition blank_text (s : pystr) : Prop :=
  Forall (fun c => c = comma \/ Py_ISSPACE c = true) s.

(** A generator for the examples: a counter, each draw is [low] plus the
    counter reduced to the width of the interval. *)
Definition counting_generator : Generator :=
  {| gen_state := Z;
     randint := fun s low high => ((low + s mod (high - low))%Z, (s + 7919)%Z) |}.
(* ================================================================== *)
(** * Part II: theorems *)
(* ================================================================== *)

(** ** The monad of the script *)

Lemma printed_nil (w : world) : printed w [] = w.
Proof. destruct w; unfold printed; simpl. by rewrite app_nil_r. Qed.

Lemma printed_app (w : world) (a b : list line) :
  printed (printed w a) b = printed w (a ++ b).
Proof. unfold printed; simpl. by rewrite app_assoc. Qed.

Lemma bind_print {A} (l : line) (k : unit -> M A) (w : world) :
  (print l ≫= k) w = k tt (printed w [l]).
Proof. reflexivity. Qed.

Lemma bind_ret {A B} (a : A) (k : A -> M B) (w : world) :
  (mret a ≫= k) w = k a w.
Proof. reflexivity. Qed.

Lemma bind_lift {A B} (r : result A) (k : A -> M B) (w : world) :
  (lift r ≫= k) w = match r with Returned a => k a w | Raised e => (Raised e, w) end.
Proof. by destruct r. Qed.

Lemma printed_files (w : world) (ls : list line) : files (printed w ls) = files w.
Proof. reflexivity. Qed.

Lemma printed_directories (w : world) (ls : list line) :
  directories (printed w ls) = directories w.
Proof. reflexivity. Qed.

Ltac run_script :=
  repeat first [ rewrite bind_print | rewrite bind_ret | rewrite bind_lift
               | rewrite printed_app ];
  simpl.

(** ** The summary builder *)

(** C3. [create_summary_statistics] returns the empty mapping whatever its
    two arguments are, present or absent; it only prints its two banners. *)
Theorem create_summary_statistics_empty
    (population_df employment_df : option DataFrame) (w : world) :
  create_summary_statistics population_df employment_df w
  = (Returned ∅,
     printed w [[Lit (newline :: py "[요약 통계 생성 중...]")];
                [Lit (py "✓ 요약 통계 생성 완료")]]).
Proof.
  unfold create_summary_statistics.
  destruct population_df, employment_df; run_script; reflexivity.
Qed.

(** ** The writer on an absent dataset *)

(** C5. With an absent dataset [save_processed_data] returns at once: no
    exception, and the world (files, directories, console) is the one it
    started from. *)
Theorem save_absent_is_noop (R : Runtime) (filename : pystr) (w : world) :
  save_processed_data R None filename w = (Returned tt, w).
Proof. reflexivity. Qed.

(** ** The keyword filter *)

(** C7. [clean_employment_data] returns a present dataset as it got it,
    every row and every cell, and touches no file; the keyword list takes
    no part in the result. *)
Theorem clean_employment_data_keeps_dataset (df : DataFrame) (w : world) :
  clean_employment_data (Some df) w
  = (Returned (Some df),
     printed w [[Lit (newline :: py "[고용 데이터 정제 중...]")];
                [Lit (py "✓ 고용 데이터 정제 완료")]]).
Proof.
  unfold clean_employment_data. run_script. reflexivity.
Qed.

(** ** The loader *)

Lemma read_csv_world (R : Runtime) (p : path) (enc : encoding) (w : world) :
  snd (Pandas.read_csv R p enc w) = w.
Proof.
  unfold Pandas.read_csv, read_file, mbind, M_bind, lift.
  destruct (files w !! p) as [b|]; [by destruct (csv_parse R b enc)|].
  by case_bool_decide.
Qed.

Lemma read_csv_found (R : Runtime) (p : path) (enc : encoding) (w : world) (b : bytes) :
  files w !! p = Some b ->
  Pandas.read_csv R p enc w = (csv_parse R b enc, w).
Proof.
  intros Hb. unfold Pandas.read_csv, read_file, mbind, M_bind, lift.
  rewrite Hb. by destruct (csv_parse R b enc).
Qed.

Lemma read_csv_missing (R : Runtime) (p : path) (enc : encoding) (w : world) :
  files w !! p = None -> p ∉ directories w ->
  Pandas.read_csv R p enc w = (Raised (Exn FileNotFoundError (path_str p)), w).
Proof.
  intros Hb Hd. unfold Pandas.read_csv, read_file, mbind, M_bind.
  rewrite Hb. by rewrite bool_decide_eq_false_2.
Qed.

(** What [load_kosis_csv] does, by the outcome of the read. *)
Lemma load_kosis_csv_by_outcome (R : Runtime) (filename : pystr) (enc : encoding)
    (w : world) :
  let filepath := path_join (DATA_DIR R) filename in
  load_kosis_csv R filename enc w =
  match fst (Pandas.read_csv R filepath enc w) with
  | Returned df =>
      (Returned (Some df),
       printed w [[Lit (py "✓ "); FStr filename; Lit (py " 로드 완료 (");
                   FInt (len df); Lit (py " rows)")]])
  | Raised e =>
      if is_FileNotFoundError e then
        (Returned None,
         printed w [[Lit (py "✗ "); FStr filename; Lit (py " 파일을 찾을 수 없습니다.")];
                    [Lit (py "   경로: "); FPath filepath]])
      else
        (Returned None,
         printed w [[Lit (py "✗ "); FStr filename; Lit (py " 로드 중 오류: "); FExn e]])
  end.
Proof.
  intros filepath. unfold load_kosis_csv, try_except. fold filepath.
  unfold mbind at 1. unfold M_bind at 1.
  pose proof (read_csv_world R filepath enc w) as Hw.
  destruct (Pandas.read_csv R filepath enc w) as [[df|e] w']; simpl in Hw; subst w'; simpl.
  - run_script. reflexivity.
  - destruct (is_FileNotFoundError e); run_script; reflexivity.
Qed.


(** ** The writer *)

Lemma split_slash_no_slash (cur s : pystr) :
  slash ∉ s -> split_slash cur s = [rev cur ++ s].
Proof.
  revert cur. induction s as [|c s IH]; intros cur Hs; simpl.
  - by rewrite app_nil_r.
  - apply not_elem_of_cons in Hs as [Hc Hs].
    destruct (N.eqb_spec c slash) as [->|_]; [done|].
    rewrite IH by done. simpl. by rewrite <- app_assoc.
Qed.

(** A name with the prefix "processed_" and no "/" is one part of a
    path, and joins the directory as its last part. *)
Lemma path_join_processed (base : path) (filename : pystr) :
  slash ∉ filename ->
  path_join base (py "processed_" ++ filename) = base ++ [py "processed_" ++ filename].
Proof.
  intros Hs. unfold path_join, parse_path.
  rewrite split_slash_no_slash.
  2:{ change (py "processed_") with [112; 114; 111; 99; 101; 115; 115; 101; 100; 95].
      apply not_elem_of_app; split; [|done]. unfold slash.
      repeat (apply not_elem_of_cons; split; [done|]). apply not_elem_of_nil. }
  change (py "processed_") with [112; 114; 111; 99; 101; 115; 115; 101; 100; 95].
  reflexivity.
Qed.

Lemma parent_snoc (base : path) (x : pystr) :
  is_absolute [x] = false -> parent (base ++ [x]) = base.
Proof.
  intros Hx. destruct base as [|r base].
  - unfold parent. simpl app. by rewrite Hx.
  - unfold parent.
    destruct ((r :: base) ++ [x]) as [|r0 [|r1 l]] eqn:E.
    + discriminate E.
    + destruct base; discriminate E.
    + rewrite <- E. apply removelast_last.
Qed.

Lemma name_snoc (base : path) (x : pystr) :
  is_absolute [x] = false -> name (base ++ [x]) = x.
Proof.
  intros Hx. unfold name.
  assert (is_absolute (base ++ [x]) && (length (base ++ [x]) =? 1)%nat = false) as ->.
  { destruct base as [|r [|r' base]]; simpl app.
    - by rewrite Hx.
    - apply andb_false_r.
    - apply andb_false_r. }
  apply last_last.
Qed.

Lemma processed_name_relative (filename : pystr) :
  is_absolute [py "processed_" ++ filename] = false.
Proof.
  change (py "processed_") with [112; 114; 111; 99; 101; 115; 115; 101; 100; 95].
  reflexivity.
Qed.

Lemma write_file_ok (p : path) (b : bytes) (w : world) :
  parent p ∈ directories w -> p ∉ directories w ->
  write_file p b w =
  (Returned tt,
   {| files := <[p := b]> (files w); directories := directories w;
      console := console w |}).
Proof.
  intros Hparent Hp. unfold write_file.
  rewrite (bool_decide_eq_true_2 _ Hparent), (bool_decide_eq_false_2 _ Hp).
  reflexivity.
Qed.

(** Without [index] the records are the labels, then the cells of each
    row: a record has one field per column and no row label. *)
Lemma to_csv_records_no_index (R : Runtime) (df : DataFrame) :
  Pandas.to_csv_records R df false =
  columns df
  :: map (fun i => map (fun nc => Pandas.cell_text R (snd nc) i) (cols df))
         (seq 0 (nrows df)).
Proof. reflexivity. Qed.

Lemma to_csv_records_width (R : Runtime) (df : DataFrame) (rec : list pystr) :
  rec ∈ Pandas.to_csv_records R df false -> length rec = length (cols df).
Proof.
  rewrite to_csv_records_no_index, elem_of_cons, list_elem_of_fmap.
  intros [->|(i & -> & _)].
  - unfold columns. by rewrite length_map.
  - by rewrite length_map.
Qed.

(** The writer on a present dataset, when the write goes through. *)
Lemma save_processed_data_written (R : Runtime) (df : DataFrame)
    (filename : pystr) (w : world) (payload : list N) :
  slash ∉ filename ->
  DATA_DIR R ∈ directories w ->
  DATA_DIR R ++ [py "processed_" ++ filename] ∉ directories w ->
  utf8_encode (csv_write R (Pandas.to_csv_records R df false)) = Some payload ->
  save_processed_data R (Some df) filename w =
  (Returned tt,
   printed {| files := <[DATA_DIR R ++ [py "processed_" ++ filename]
                         := map byte_of_N (BOM ++ payload)]> (files w);
              directories := directories w;
              console := console w |}
           [[Lit (py "✓ 저장 완료: ");
             FPath (DATA_DIR R ++ [py "processed_" ++ filename])]]).
Proof.
  intros Hname Hdir Hfile Henc.
  pose proof (parent_snoc (DATA_DIR R) _ (processed_name_relative filename)) as Hparent.
  assert (parent (DATA_DIR R ++ [py "processed_" ++ filename]) ∈ directories w) as Hdir'.
  { replace (parent _) with (DATA_DIR R) by (symmetry; exact Hparent). exact Hdir. }
  unfold save_processed_data. rewrite path_join_processed by done.
  unfold Pandas.to_csv.
  unfold mbind at 1. unfold M_bind at 1.
  unfold mbind at 1. unfold M_bind at 1.
  rewrite write_file_ok; [|exact Hdir'|done].
  unfold Pandas.encode, encode_utf8. rewrite Henc.
  rewrite write_file_ok; [|exact Hdir'|done].
  simpl files. rewrite insert_insert_eq. reflexivity.
Qed.


(** ** The conversion pass *)

Section ConversionPass.
Context (R : Runtime).

Lemma has_label_true (col : pystr) (nc : pystr * column) :
  Pandas.has_label col nc = true <-> fst nc = col.
Proof. unfold Pandas.has_label, pystr_eqb. apply bool_decide_eq_true. Qed.

Lemma filter_label_absent (l : list (pystr * column)) (col : pystr) :
  col ∉ map fst l ->
  filter (fun nc => Pandas.has_label col nc = true) l = [].
Proof.
  induction l as [|[n c] l IH]; [done|]. simpl.
  intros [Hne Hin]%not_elem_of_cons.
  rewrite filter_cons_False; [by apply IH|].
  rewrite has_label_true. simpl. congruence.
Qed.

(** A label that identifies one column selects that column. *)
Lemma filter_unique_label (l : list (pystr * column)) (col : pystr) (c : column) :
  NoDup (map fst l) -> (col, c) ∈ l ->
  filter (fun nc => Pandas.has_label col nc = true) l = [(col, c)].
Proof.
  induction l as [|[n c'] l IH]; intros Hnd Hin; [by apply elem_of_nil in Hin|].
  simpl in Hnd. apply NoDup_cons in Hnd as [Hn Hnd].
  apply elem_of_cons in Hin as [Heq|Hin].
  - injection Heq as <- <-.
    rewrite filter_cons_True by (by apply has_label_true).
    by rewrite filter_label_absent.
  - rewrite filter_cons_False; [by apply IH|].
    rewrite has_label_true. simpl. intros ->. apply Hn.
    apply (list_elem_of_fmap_2 fst _ (col, c)), Hin.
Qed.

Lemma convert_labelled_labels (col : pystr) (l : list (pystr * column)) :
  map fst (convert_labelled R col l) = map fst l.
Proof.
  unfold convert_labelled. rewrite map_map. apply map_ext.
  intros nc. by destruct (Pandas.has_label col nc).
Qed.

Lemma map_unique_label {B} (f g : pystr * column -> B) (l : list (pystr * column))
    (col : pystr) (c : column) :
  NoDup (map fst l) -> (col, c) ∈ l ->
  (forall nc, fst nc <> col -> f nc = g nc) -> f (col, c) = g (col, c) ->
  map f l = map g l.
Proof.
  intros Hnd Hin Hother Hcol. apply map_ext_in. intros [n c'] Hin'.
  destruct (decide (n = col)) as [->|Hne]; [|by apply Hother].
  apply list_elem_of_In in Hin'.
  assert (c' = c) as ->; [|done].
  pose proof (filter_unique_label l col c Hnd Hin) as Hf.
  assert ((col, c') ∈ filter (fun nc => Pandas.has_label col nc = true) l) as Hc'.
  { apply list_elem_of_filter. split; [by apply has_label_true|done]. }
  rewrite Hf in Hc'. apply list_elem_of_singleton in Hc'. congruence.
Qed.

(** The body of the loop on a label that identifies a column. *)
Lemma convert_column_unique (df : DataFrame) (col : pystr) (c : column) :
  NoDup (columns df) -> (col, c) ∈ cols df ->
  convert_column R df col
  = Returned (mkDataFrame (nrows df) (convert_labelled R col (cols df))).
Proof.
  intros Hnd Hin. unfold convert_column, Pandas.getitem.
  rewrite (filter_unique_label _ _ c Hnd Hin). simpl.
  assert (forall c', converted_column R c = c' ->
            mkDataFrame (nrows df)
              (map (fun nc => if Pandas.has_label col nc then (fst nc, c') else nc)
                   (cols df))
            = mkDataFrame (nrows df) (convert_labelled R col (cols df))) as Hset.
  { intros c' <-. f_equal. unfold convert_labelled.
    apply (map_unique_label _ _ _ col c Hnd Hin).
    - intros nc Hne. destruct (Pandas.has_label col nc) eqn:E; [by apply has_label_true in E|done].
    - by rewrite (proj2 (has_label_true col (col, c))). }
  assert (converted_column R c = c ->
          df = mkDataFrame (nrows df) (convert_labelled R col (cols df))) as Hkeep.
  { intros Hc. rewrite <- (Hset c Hc). destruct df as [n l]. simpl. f_equal.
    rewrite <- (map_id l) at 1. simpl in *.
    apply (map_unique_label _ _ _ col c Hnd Hin).
    - intros nc Hne. destruct (Pandas.has_label col nc) eqn:E; [by apply has_label_true in E|done].
    - by rewrite (proj2 (has_label_true col (col, c))). }
  destruct c as [cells|vals|vals|vals]; simpl; try (f_equal; by apply Hkeep).
  unfold Pandas.setitem.
  assert (existsb (Pandas.has_label col) (cols df) = true) as ->.
  { apply existsb_exists. exists (col, ObjectCol cells). split.
    - by apply list_elem_of_In.
    - by apply has_label_true. }
  destruct (Pandas.cells_to_float R _) as [fs|e] eqn:Hcells; simpl.
  - f_equal. apply Hset. simpl. by rewrite Hcells.
  - f_equal. apply Hkeep. simpl. by rewrite Hcells.
Qed.

Lemma for_each_convert (names : list pystr) (df : DataFrame) :
  NoDup (columns df) -> NoDup names ->
  (forall n, n ∈ names -> n ∈ columns df) ->
  for_each names df (convert_column R)
  = Returned (mkDataFrame (nrows df)
      (map (fun nc => if bool_decide (fst nc ∈ names)
                      then (fst nc, converted_column R (snd nc)) else nc)
           (cols df))).
Proof.
  revert df. induction names as [|x names IH]; intros df Hnd Hnames Hsub.
  - simpl. destruct df as [n l]. simpl. f_equal. f_equal.
    rewrite <- (map_id l) at 1. by apply map_ext.
  - apply NoDup_cons in Hnames as [Hx Hnames].
    assert (x ∈ columns df) as Hxin by (apply Hsub; left).
    apply list_elem_of_fmap in Hxin as ([x' c] & -> & Hin). simpl in *.
    rewrite (convert_column_unique df x' c Hnd Hin). simpl.
    rewrite IH; simpl.
    + f_equal. f_equal. unfold convert_labelled. rewrite map_map.
      apply map_ext. intros nc.
      destruct (Pandas.has_label x' nc) eqn:E; simpl.
      * apply has_label_true in E. subst x'.
        rewrite bool_decide_eq_false_2 by done.
        rewrite bool_decide_eq_true_2 by left. done.
      * assert (fst nc <> x') as Hne.
        { intros Heq. apply has_label_true in Heq. congruence. }
        destruct (decide (fst nc ∈ names)) as [Hn|Hn].
        -- rewrite !bool_decide_eq_true_2; [done|by right|done].
        -- rewrite !bool_decide_eq_false_2; [done| |done].
           intros [?|?]%elem_of_cons; done.
    + unfold columns. simpl. by rewrite convert_labelled_labels.
    + done.
    + intros n Hn. unfold columns. simpl. rewrite convert_labelled_labels.
      apply Hsub. by right.
Qed.

Lemma NoDup_filter_labels (P : pystr * column -> Prop) `{!forall nc, Decision (P nc)}
    (l : list (pystr * column)) :
  NoDup (map fst l) -> NoDup (map fst (filter P l)).
Proof.
  induction l as [|nc l IH]; [done|]. simpl. intros [Hn Hnd]%NoDup_cons.
  destruct (decide (P nc)).
  - rewrite filter_cons_True by done. simpl. apply NoDup_cons. split; [|by apply IH].
    intros (nc' & Heq & Hin%list_elem_of_filter)%list_elem_of_fmap.
    apply Hn. apply list_elem_of_fmap. exists nc'. by destruct Hin.
  - rewrite filter_cons_False by done. by apply IH.
Qed.

(** The loop converts the table: every text column whose cells all convert
    becomes a float column, every other column is left as it is. *)
Lemma convert_text_columns_unique (df : DataFrame) :
  NoDup (columns df) ->
  convert_text_columns R df = Returned (converted_table R df).
Proof.
  intros Hnd. unfold convert_text_columns, Pandas.select_dtypes, columns at 1. simpl.
  rewrite for_each_convert.
  - unfold converted_table. f_equal. f_equal. apply map_ext_in.
    intros [n c] Hin. apply list_elem_of_In in Hin. simpl.
    case_bool_decide as Hn; [done|].
    destruct c as [cells|vals|vals|vals]; try done.
    exfalso. apply Hn. apply list_elem_of_fmap. exists (n, ObjectCol cells).
    split; [done|]. by apply list_elem_of_filter.
  - done.
  - by apply NoDup_filter_labels.
  - intros n (nc & -> & Hin%list_elem_of_filter)%list_elem_of_fmap.
    apply list_elem_of_fmap. exists nc. by destruct Hin.
Qed.

End ConversionPass.

(** ** Counting the missing cells *)

Lemma filter_ext_in {A} (P Q : A -> Prop) `{!forall x, Decision (P x)}
    `{!forall x, Decision (Q x)} (l : list A) :
  (forall x, x ∈ l -> P x <-> Q x) -> filter P l = filter Q l.
Proof.
  induction l as [|a l IH]; intros Hiff; [done|].
  assert (filter P l = filter Q l) as Hl.
  { apply IH. intros x Hx. apply Hiff. by right. }
  destruct (decide (P a)) as [Ha|Ha].
  - rewrite !filter_cons_True; [by rewrite Hl| |done]. apply Hiff; [left|done].
  - rewrite !filter_cons_False; [done| |done]. intros Hq. apply Ha, Hiff; [left|done].
Qed.

Lemma bool_sum_app (a b : list bool) :
  Pandas.bool_sum (a ++ b) = (Pandas.bool_sum a + Pandas.bool_sum b)%Z.
Proof.
  unfold Pandas.bool_sum. induction a as [|x a IH]; simpl; [done|].
  rewrite IH. lia.
Qed.

(** Summing the marks counts the rows that are marked. *)
Lemma bool_sum_counts (bs : list bool) :
  Pandas.bool_sum bs
  = Z.of_nat (length (filter (fun i => bs !! i = Some true) (seq 0 (length bs)))).
Proof.
  induction bs as [|b bs IH] using rev_ind; [done|].
  rewrite bool_sum_app, length_app, Nat.add_1_r, seq_S, filter_app, length_app.
  rewrite Nat2Z.inj_add. f_equal.
  - rewrite IH. do 2 f_equal. apply filter_ext_in.
    intros i Hi%elem_of_seq. by rewrite lookup_app_l by lia.
  - simpl. destruct b.
    + rewrite filter_cons_True; [done|]. by rewrite list_lookup_middle.
    + rewrite filter_cons_False; [done|]. by rewrite list_lookup_middle.
Qed.

Lemma col_isnull_length (c : column) : length (Pandas.col_isnull c) = col_len c.
Proof. destruct c; simpl; by rewrite length_map. Qed.

Lemma col_isnull_lookup (c : column) (i : nat) :
  Pandas.col_isnull c !! i = Some true <-> missing_at c i = true.
Proof.
  destruct c as [cells|vals|vals|vals]; simpl;
    change (map ?f ?l) with (f <$> l); rewrite list_lookup_fmap.
  - destruct (cells !! i) as [[s|]|]; simpl; split; congruence.
  - destruct (vals !! i) as [x|]; simpl; split; congruence.
  - destruct (vals !! i); simpl; split; congruence.
  - destruct (vals !! i); simpl; split; congruence.
Qed.

(** The null count of a column, as [df.isnull().sum()] computes it, is the
    number of its missing cells. *)
Lemma null_count_exact (c : column) :
  Pandas.col_sum (BoolCol (Pandas.col_isnull c)) = Z.of_nat (count_missing c).
Proof.
  simpl. rewrite bool_sum_counts, col_isnull_length. unfold count_missing.
  do 2 f_equal. apply list_filter_iff. intros i. apply col_isnull_lookup.
Qed.

Lemma null_counts_exact (df : DataFrame) :
  Pandas.sum (Pandas.isnull df)
  = map (fun nc => (fst nc, Z.of_nat (count_missing (snd nc)))) (cols df).
Proof.
  unfold Pandas.sum, Pandas.isnull. simpl. rewrite map_map.
  apply map_ext. intros [n c]. cbn [fst snd]. f_equal. apply null_count_exact.
Qed.

Lemma filter_none {A} (P : A -> Prop) `{!forall x, Decision (P x)} (l : list A) :
  (forall x, x ∈ l -> ~ P x) -> filter P l = [].
Proof.
  induction l as [|a l IH]; intros Hl; [done|].
  rewrite filter_cons_False by (apply Hl; left). apply IH.
  intros x Hx. apply Hl. by right.
Qed.

Lemma missing_at_in_range (c : column) (i : nat) :
  missing_at c i = true -> (i < col_len c)%nat.
Proof.
  destruct c as [cells|vals|vals|vals]; simpl; try done.
  - destruct (cells !! i) eqn:El; [|done]. intros _. by apply lookup_lt_Some in El.
  - destruct (vals !! i) eqn:El; [|done]. intros _. by apply lookup_lt_Some in El.
Qed.

(** No cell is missing exactly when the count is zero. *)
Lemma count_missing_zero (c : column) :
  count_missing c = 0%nat <-> forall i, missing_at c i = false.
Proof.
  unfold count_missing. rewrite length_zero_iff_nil. split.
  - intros Hnil i. destruct (missing_at c i) eqn:E; [|done].
    exfalso. apply (filter_nil_not_elem_of _ _ i Hnil E).
    apply elem_of_seq. pose proof (missing_at_in_range c i E). lia.
  - intros Hnone. apply filter_none. intros i _. by rewrite Hnone.
Qed.

(** What the script prints about missing values is the report the table
    calls for. *)
Lemma missing_report_printed (df : DataFrame) (w : world) :
  (if Pandas.any (Pandas.sum (Pandas.isnull df))
   then print [Lit (py "  결측치 발견: ");
               FSeries (Pandas.positive_entries (Pandas.sum (Pandas.isnull df)))]
   else mret tt) w
  = (Returned tt, printed w (missing_report df)).
Proof.
  rewrite null_counts_exact. unfold missing_report, Pandas.positive_entries, Series.
  set (counts := map _ (cols df)).
  assert (filter (fun e => (0 <? snd e)%Z = true) counts
          = filter (fun e => (0 < snd e)%Z) counts) as ->.
  { apply list_filter_iff. intros e. apply Z.ltb_lt. }
  assert (Pandas.any counts = true <-> filter (fun e => (0 < snd e)%Z) counts <> []) as Hany.
  { unfold Pandas.any. rewrite existsb_exists. split.
    - intros (e & Hin & Hne) Hnil. apply list_elem_of_In in Hin.
      assert (0 <= snd e)%Z as Hpos.
      { subst counts. apply list_elem_of_fmap in Hin as (nc & -> & _). simpl. lia. }
      apply negb_true_iff, Z.eqb_neq in Hne.
      apply (filter_nil_not_elem_of _ _ e Hnil); [lia|done].
    - intros Hne. destruct (filter _ counts) as [|e l] eqn:Hf; [done|].
      assert (e ∈ filter (fun e => (0 < snd e)%Z) counts) as He by (rewrite Hf; left).
      apply list_elem_of_filter in He as [Hpos He].
      exists e. split; [by apply list_elem_of_In|].
      apply negb_true_iff, Z.eqb_neq. lia. }
  destruct (Pandas.any counts) eqn:E; destruct (filter _ counts) eqn:Hf.
  - by destruct (proj1 Hany eq_refl).
  - reflexivity.
  - by rewrite printed_nil.
  - discriminate (proj2 Hany ltac:(done)).
Qed.

(** The whole of [clean_population_data] on a table whose labels identify
    its columns. *)
Lemma clean_population_data_unique (R : Runtime) (df : DataFrame) (w : world) :
  NoDup (columns df) ->
  clean_population_data R (Some df) w
  = (Returned (Some (converted_table R df)),
     printed w ([[Lit (newline :: py "[인구 데이터 정제 중...]")]]
                ++ missing_report (converted_table R df)
                ++ [[Lit (py "✓ 인구 데이터 정제 완료")]])).
Proof.
  intros Hnd. unfold clean_population_data.
  rewrite bind_print, bind_lift, convert_text_columns_unique by done.
  unfold mbind at 1. unfold M_bind at 1.
  rewrite missing_report_printed. run_script. reflexivity.
Qed.

(** ** All or nothing *)

Lemma converted_table_lookup (R : Runtime) (df : DataFrame) (i : nat)
    (label : pystr) (c : column) :
  cols df !! i = Some (label, c) ->
  cols (converted_table R df) !! i = Some (label, converted_column R c).
Proof.
  intros Hi. unfold converted_table. simpl.
  change (map ?f ?l) with (f <$> l). by rewrite list_lookup_fmap, Hi.
Qed.

(** One cell that does not convert makes the conversion of the cells
    raise. *)
Lemma cells_to_float_raises (R : Runtime) (cells : list (option pystr)) (s : pystr) :
  Some s ∈ cells -> py_float R s = None ->
  raises (Pandas.cells_to_float R cells) = true.
Proof.
  intros Hin Hs. induction cells as [|x cells IH]; [by apply elem_of_nil in Hin|].
  simpl. apply elem_of_cons in Hin as [<-|Hin].
  - simpl. by rewrite Hs.
  - destruct (Pandas.cell_to_float R x); simpl; [|done].
    destruct (Pandas.cells_to_float R cells); simpl; [|done].
    by apply IH.
Qed.

(** C1. In a table whose labels identify its columns, take a text column
    with a cell that [float] rejects once its commas are removed.
    [clean_population_data] returns normally, and in the table it returns
    that column is the text column it was, every cell as before, whatever
    its other cells are.  Nothing is printed about the failure: the console
    gets the two banners and the report on missing values. *)
Theorem conversion_is_all_or_nothing (R : Runtime) (df : DataFrame) (i : nat)
    (label : pystr) (cells : list (option pystr)) (s : pystr) (w : world) :
  NoDup (columns df) ->
  cols df !! i = Some (label, ObjectCol cells) ->
  Some s ∈ cells ->
  py_float R (str_replace1 comma [] s) = None ->
  exists df',
    clean_population_data R (Some df) w
    = (Returned (Some df'),
       printed w ([[Lit (newline :: py "[인구 데이터 정제 중...]")]]
                  ++ missing_report df'
                  ++ [[Lit (py "✓ 인구 데이터 정제 완료")]])) /\
    nrows df' = nrows df /\
    cols df' !! i = Some (label, ObjectCol cells).
Proof.
  intros Hnd Hi Hin Hs. exists (converted_table R df).
  split; [by apply clean_population_data_unique|]. split; [done|].
  rewrite (converted_table_lookup R df i label _ Hi). do 2 f_equal.
  unfold converted_column.
  pose proof (cells_to_float_raises R
                (map (option_map (str_replace1 comma [])) cells)
                (str_replace1 comma [] s)) as Hraise.
  destruct (Pandas.cells_to_float R _); [|done].
  discriminate Hraise; [|done].
  apply (list_elem_of_fmap_2 (option_map (str_replace1 comma [])) _ (Some s)), Hin.
Qed.

(** ** Reporting the missing values *)

(** C8. On a table whose labels identify its columns, after the conversion
    pass the null counts that [clean_population_data] computes are, column
    by column, the numbers of missing cells (zero exactly when the column
    has none); what it prints is the columns with a count above zero and
    those counts, and nothing when there is no such column; and the table
    it returns is the table the conversion pass left, all its rows and
    cells. *)
Theorem missing_values_reported_exactly (R : Runtime) (df : DataFrame) (w : world) :
  NoDup (columns df) ->
  exists df',
    convert_text_columns R df = Returned df' /\
    Pandas.sum (Pandas.isnull df')
    = map (fun nc => (fst nc, Z.of_nat (count_missing (snd nc)))) (cols df') /\
    (forall nc, nc ∈ cols df' ->
       count_missing (snd nc) = 0%nat <-> forall i, missing_at (snd nc) i = false) /\
    clean_population_data R (Some df) w
    = (Returned (Some df'),
       printed w ([[Lit (newline :: py "[인구 데이터 정제 중...]")]]
                  ++ missing_report df'
                  ++ [[Lit (py "✓ 인구 데이터 정제 완료")]])).
Proof.
  intros Hnd. exists (converted_table R df). repeat split.
  - by apply convert_text_columns_unique.
  - apply null_counts_exact.
  - by apply count_missing_zero.
  - by apply count_missing_zero.
  - by apply clean_population_data_unique.
Qed.

(** ** Reading comma-grouped digits *)

Lemma is_digit_range (c : N) : is_digit c = true <-> 48 <= c <= 57.
Proof. unfold is_digit. rewrite andb_true_iff, !N.leb_le. done. Qed.

Lemma take_while_all {A} (p : A -> bool) (l : list A) :
  Forall (fun x => p x = true) l -> take_while p l = l.
Proof. induction 1 as [|x l Hx _ IH]; simpl; [done|]. by rewrite Hx, IH. Qed.

Lemma drop_while_all {A} (p : A -> bool) (l : list A) :
  Forall (fun x => p x = true) l -> drop_while p l = [].
Proof. induction 1 as [|x l Hx _ IH]; simpl; [done|]. by rewrite Hx. Qed.

Lemma drop_while_head {A} (p : A -> bool) (x : A) (l : list A) :
  p x = false -> drop_while p (x :: l) = x :: l.
Proof. intros Hx. simpl. by rewrite Hx. Qed.

(** Removing the commas of grouped digits leaves the digits. *)
Lemma grouped_digits_without_commas (s : pystr) :
  Forall (fun c => is_digit c = true \/ c = comma) s ->
  str_replace1 comma [] s = filter (fun c => is_digit c = true) s.
Proof.
  unfold pystr, codepoint in *.
  induction 1 as [|c s Hc _ IH]; [done|].
  unfold str_replace1 in *. cbn [flat_map]. rewrite IH.
  destruct Hc as [Hd| ->].
  - rewrite filter_cons_True by done.
    destruct (N.eqb_spec c comma) as [->|_]; [discriminate Hd|done].
  - rewrite filter_cons_False by (by intros Hd). done.
Qed.

Lemma digits_value_from (ds : list N) (a : N) :
  fold_left (fun acc c => 10 * acc + digit_val c) ds a
  = a * 10 ^ N.of_nat (length ds) + decimal_number ds.
Proof.
  revert a. induction ds as [|d ds IH]; intros a; simpl fold_left.
  - simpl. lia.
  - rewrite IH. cbn [length decimal_number]. unfold digit_val.
    rewrite Nat2N.inj_succ, N.pow_succ_r'. lia.
Qed.

(** The digits of a literal write the same number read from the left and
    by position. *)
Lemma digits_value_decimal (ds : list N) : digits_value ds = decimal_number ds.
Proof. unfold digits_value. rewrite digits_value_from. lia. Qed.

Section ReadingDigits.
Context (R : Runtime).

Lemma ascii_transform_ascii (s : pystr) :
  Forall (fun c => c < 127) s -> ascii_transform R s = s.
Proof.
  induction 1 as [|c s Hc _ IH]; [done|].
  unfold ascii_transform in *. simpl. rewrite IH.
  by rewrite (proj2 (N.ltb_lt _ _) Hc).
Qed.

Lemma strip_digits (ds : list N) :
  Forall (fun c => is_digit c = true) ds -> strip ds = ds.
Proof.
  intros Hds. unfold strip.
  assert (forall l, Forall (fun c => is_digit c = true) l ->
                    drop_while Py_ISSPACE l = l) as Hdrop.
  { intros [|c l] Hl; [done|]. apply drop_while_head.
    apply Forall_cons in Hl as [Hc%is_digit_range _].
    unfold Py_ISSPACE. apply orb_false_iff. split.
    - apply andb_false_iff. right. apply N.leb_gt. lia.
    - apply N.eqb_neq. lia. }
  rewrite (Hdrop ds Hds), Hdrop, rev_involutive; [done|].
  by apply Forall_rev.
Qed.

Lemma remove_underscores_digits (ds : list N) (prev : N) :
  prev <> underscore -> Forall (fun c => is_digit c = true) ds ->
  remove_underscores prev ds = Some ds.
Proof.
  intros Hprev Hds. revert prev Hprev.
  induction Hds as [|c ds Hc _ IH]; intros prev Hprev; simpl.
  - by rewrite (proj2 (N.eqb_neq _ _) Hprev).
  - assert (c <> underscore) as Hne.
    { apply is_digit_range in Hc. unfold underscore. lia. }
    rewrite (proj2 (N.eqb_neq _ _) Hne), Hc, andb_false_r.
    by rewrite IH.
Qed.

Lemma float_of_decimal_integer (n : N) :
  float_of_decimal false n 0 = Pandas.float_of_Z (Z.of_N n).
Proof.
  destruct n as [|p]; [done|]. unfold float_of_decimal, Pandas.float_of_Z. simpl.
  by rewrite Pos.mul_1_r.
Qed.

(** [float] on a run of ASCII digits: the float nearest to the number
    they write. *)
Lemma py_float_digits (ds : list N) :
  ds <> [] -> Forall (fun c => is_digit c = true) ds ->
  py_float R ds = Some (Pandas.float_of_Z (Z.of_N (decimal_number ds))).
Proof.
  intros Hne Hds. unfold py_float.
  rewrite ascii_transform_ascii.
  2:{ eapply Forall_impl; [exact Hds|]. intros c Hc%is_digit_range. simpl. lia. }
  rewrite strip_digits by done.
  destruct ds as [|d ds]; [done|].
  rewrite remove_underscores_digits; [|done|done].
  unfold float_of_ascii, parse_decimal.
  assert (parse_sign (d :: ds) = (false, d :: ds)) as ->.
  { apply Forall_cons in Hds as [Hd%is_digit_range _]. unfold parse_sign.
    rewrite (proj2 (N.eqb_neq d 45)), (proj2 (N.eqb_neq d 43)) by lia. done. }
  rewrite take_while_all, drop_while_all by done.
  rewrite app_nil_r. cbn -[float_of_decimal digits_value].
  rewrite digits_value_decimal, float_of_decimal_integer. done.
Qed.

(** [float] on comma-grouped digits whose commas have been removed. *)
Lemma py_float_grouped_digits (s : pystr) :
  grouped_digits s ->
  py_float R (str_replace1 comma [] s)
  = Some (Pandas.float_of_Z (Z.of_N (denoted_integer s))).
Proof.
  intros [Hall Hsome]. rewrite grouped_digits_without_commas by done.
  apply py_float_digits.
  - apply Exists_exists in Hsome as (c & Hc & Hd).
    intros Hnil. assert (c ∈ filter (fun c => is_digit c = true) s) as Hin.
    { by apply list_elem_of_filter. }
    rewrite Hnil in Hin. by apply elem_of_nil in Hin.
  - apply Forall_forall. intros c Hc.
    by apply list_elem_of_filter in Hc as [Hd _].
Qed.

End ReadingDigits.

(** ** Integers that a float holds exactly *)

Lemma digits2_pos_lower (p : positive) :
  (2 ^ (Zpos (digits2_pos p) - 1) <= Zpos p)%Z.
Proof.
  induction p as [p IH|p IH|]; cbn [digits2_pos]; [| |done].
  - rewrite Pos2Z.inj_succ. replace (Z.succ (Zpos (digits2_pos p)) - 1)%Z
      with (Z.succ (Zpos (digits2_pos p) - 1))%Z by lia.
    rewrite Z.pow_succ_r by lia. lia.
  - rewrite Pos2Z.inj_succ. replace (Z.succ (Zpos (digits2_pos p)) - 1)%Z
      with (Z.succ (Zpos (digits2_pos p) - 1))%Z by lia.
    rewrite Z.pow_succ_r by lia. lia.
Qed.

Lemma digits2_pos_small (p : positive) :
  (Zpos p < 2 ^ 53)%Z -> (Zpos (digits2_pos p) <= 53)%Z.
Proof.
  intros Hp. destruct (Z.le_gt_cases (Zpos (digits2_pos p)) 53) as [|Hgt]; [done|].
  pose proof (digits2_pos_lower p) as Hlow.
  assert (2 ^ 53 <= 2 ^ (Zpos (digits2_pos p) - 1))%Z
    by (apply Z.pow_le_mono_r; lia).
  lia.
Qed.

Lemma digits2_pos_shift (p k : positive) :
  digits2_pos (Pos.iter xO p k) = (digits2_pos p + k)%positive.
Proof.
  induction k as [|k IH] using Pos.peano_ind.
  - simpl. lia.
  - rewrite Pos.iter_succ. cbn [digits2_pos]. rewrite IH. lia.
Qed.

Lemma Zpos_shift (p k : positive) :
  Zpos (Pos.iter xO p k) = (Zpos p * 2 ^ Zpos k)%Z.
Proof.
  induction k as [|k IH] using Pos.peano_ind.
  - simpl. lia.
  - rewrite Pos.iter_succ, Pos2Z.inj_xO, IH, Pos2Z.inj_succ, Z.pow_succ_r by lia. lia.
Qed.

(** A mantissa of full width is kept as it is. *)
Lemma binary_round_aux_full (m : positive) (e : Z) :
  Zpos (digits2_pos m) = 53%Z -> (-1074 <= e <= 971)%Z ->
  binary_round_aux prec emax false (Zpos m) e loc_Exact = S754_finite false m e.
Proof.
  intros Hm He. unfold binary_round_aux, shr_fexp.
  cbn [Zdigits2 shr_record_of_loc].
  assert (fexp prec emax (Zpos (digits2_pos m) + e) - e = 0)%Z as ->.
  { rewrite Hm. unfold fexp, emin, prec, emax. lia. }
  cbn [shr shr_m loc_of_shr_record round_nearest_even Zdigits2 shr_record_of_loc].
  assert (fexp prec emax (Zpos (digits2_pos m) + e) - e = 0)%Z as ->.
  { rewrite Hm. unfold fexp, emin, prec, emax. lia. }
  cbn [shr shr_m].
  assert ((e <=? emax - prec)%Z = true) as ->; [|done].
  apply Z.leb_le. unfold emax, prec. lia.
Qed.

(** A positive integer below [2^53] is rounded to itself. *)
Lemma float_of_Z_exact_pos (p : positive) :
  (Zpos p < 2 ^ 53)%Z -> float_to_Z (Pandas.float_of_Z (Zpos p)) = Some (Zpos p).
Proof.
  intros Hp. pose proof (digits2_pos_small p Hp) as Hd.
  unfold Pandas.float_of_Z, binary_normalize, binary_round, shl_align.
  assert (fexp prec emax (Zpos (digits2_pos p) + 0) = Zpos (digits2_pos p) - 53)%Z as ->.
  { unfold fexp, emin, prec, emax. lia. }
  rewrite Z.sub_0_r.
  destruct (Zpos (digits2_pos p) - 53)%Z as [|k|k] eqn:Hk; [|lia|].
  - rewrite binary_round_aux_full by lia. simpl. f_equal. lia.
  - rewrite binary_round_aux_full.
    + unfold float_to_Z. cbn [Z.leb Z.compare Z.opp].
      rewrite Zpos_shift, Z.mod_mul, Z.eqb_refl, Z.div_mul by lia. done.
    + rewrite digits2_pos_shift. lia.
    + lia.
Qed.

(** Every integer from 0 to [2^53] is a float, and converting it gives
    that float. *)
Lemma float_of_Z_exact (n : N) :
  (Z.of_N n <= 2 ^ 53)%Z ->
  float_to_Z (Pandas.float_of_Z (Z.of_N n)) = Some (Z.of_N n).
Proof.
  intros Hn. destruct n as [|p]; [done|].
  destruct (Z.eq_dec (Zpos p) (2 ^ 53)%Z) as [Heq|Hne].
  - simpl Z.of_N. rewrite Heq. by vm_compute.
  - apply float_of_Z_exact_pos. simpl Z.of_N in Hn. lia.
Qed.

(** ** Columns of numbers written as text *)

(** A text column whose cells all convert becomes the float column of the
    values [float] gives for the cells without their commas; a missing cell
    becomes [NaN]. *)
Lemma cells_to_float_all (R : Runtime) (cells : list (option pystr)) (fs : list float) :
  Forall2 (fun x f => match x with
                      | Some s => py_float R (str_replace1 comma [] s) = Some f
                      | None => f = nan
                      end) cells fs ->
  Pandas.cells_to_float R (map (option_map (str_replace1 comma [])) cells)
  = Returned fs.
Proof.
  induction 1 as [|x f cells fs Hx _ IH]; [done|].
  simpl. rewrite IH. destruct x as [s|]; simpl.
  - by rewrite Hx.
  - by rewrite Hx.
Qed.

Lemma converted_column_all (R : Runtime) (cells : list (option pystr)) (fs : list float) :
  Forall2 (fun x f => match x with
                      | Some s => py_float R (str_replace1 comma [] s) = Some f
                      | None => f = nan
                      end) cells fs ->
  converted_column R (ObjectCol cells) = Float64Col fs.
Proof.
  intros Hall. unfold converted_column.
  by rewrite (cells_to_float_all R cells fs Hall).
Qed.


(** ** Age groups *)

Lemma findall_runs_skip (d : codepoint -> bool) (before s : pystr) :
  Forall (fun c => d c = false) before ->
  findall_runs d [] (before ++ s) = findall_runs d [] s.
Proof. induction 1 as [|c before Hc _ IH]; simpl; [done|]. by rewrite Hc. Qed.

Lemma findall_runs_none (d : codepoint -> bool) (s : pystr) :
  Forall (fun c => d c = false) s -> findall_runs d [] s = [].
Proof. induction 1 as [|c s Hc _ IH]; simpl; [done|]. by rewrite Hc. Qed.

(** A longest run at the front is the first match. *)
Lemma findall_runs_first (d : codepoint -> bool) (cur run after : pystr) :
  Forall (fun c => d c = true) run ->
  (forall c rest, after = c :: rest -> d c = false) ->
  rev cur ++ run <> [] ->
  exists others, findall_runs d cur (run ++ after) = (rev cur ++ run) :: others.
Proof.
  intros Hrun Hafter. revert cur.
  induction Hrun as [|c run Hc _ IH]; intros cur Hne.
  - rewrite app_nil_r in *. simpl.
    destruct cur as [|x cur]; [done|].
    destruct after as [|c rest]; simpl; [by eexists|].
    rewrite (Hafter c rest eq_refl). by eexists.
  - simpl. rewrite Hc.
    destruct (IH (c :: cur)) as [others Ho].
    + simpl. rewrite <- app_assoc. by destruct (rev cur).
    + exists others. rewrite Ho. simpl. by rewrite <- app_assoc.
Qed.

Lemma scan_int_digits_all (ds : list N) (prev acc : N) :
  prev <> underscore -> Forall (fun c => is_digit c = true) ds ->
  scan_int_digits prev acc ds
  = Some (fold_left (fun a c => 10 * a + digit_val c) ds acc, []).
Proof.
  intros Hprev Hds. revert prev acc Hprev.
  induction Hds as [|c ds Hc _ IH]; intros prev acc Hprev; simpl.
  - by rewrite (proj2 (N.eqb_neq _ _) Hprev).
  - rewrite Hc. apply IH. apply is_digit_range in Hc. unfold underscore. lia.
Qed.

Lemma take_drop_while {A} (p : A -> bool) (l : list A) :
  take_while p l ++ drop_while p l = l.
Proof. induction l as [|x l IH]; simpl; [done|]. destruct (p x); simpl; by rewrite ?IH. Qed.

Lemma take_while_Forall {A} (p : A -> bool) (l : list A) :
  Forall (fun x => p x = true) (take_while p l).
Proof.
  induction l as [|x l IH]; simpl; [done|].
  destruct (p x) eqn:E; by constructor.
Qed.

Lemma drop_while_stops {A} (p : A -> bool) (l : list A) (x : A) (rest : list A) :
  drop_while p l = x :: rest -> p x = false.
Proof.
  induction l as [|y l IH]; simpl; [done|].
  destruct (p y) eqn:E; [done|]. by intros [= <- _].
Qed.

Lemma drop_while_Exists {A} (p : A -> bool) (l : list A) :
  Exists (fun x => p x = false) l -> drop_while p l <> [].
Proof.
  induction 1 as [x l Hx|x l _ IH]; simpl.
  - by rewrite Hx.
  - by destruct (p x).
Qed.

Section AgeGroups.
Context (R : Runtime) (Hdb : unicode_database_ok R).

(** On a decimal character the first step of [int] gives the ASCII digit
    of its value. *)
Lemma ascii_transform_decimal (c : codepoint) :
  is_decimal R c = true ->
  ascii_transform R [c] = [48 + default 0 (unicode_decimal R c)] /\
  default 0 (unicode_decimal R c) < 10.
Proof.
  destruct Hdb as (Hval & Hascii & Hspace).
  unfold is_decimal, ascii_transform. simpl.
  destruct (unicode_decimal R c) as [v|] eqn:Hv; [intros _|done]. simpl.
  split; [|by apply (Hval c)].
  destruct (N.ltb_spec c 127) as [Hlt|Hge].
  - rewrite Hascii in Hv by lia.
    destruct ((48 <=? c) && (c <=? 57)) eqn:E; [|done].
    apply andb_true_iff in E as [?%N.leb_le ?%N.leb_le].
    injection Hv as <-. f_equal. lia.
  - by rewrite (Hspace c v Hv).
Qed.

Lemma ascii_transform_run (run : pystr) :
  Forall (fun c => is_decimal R c = true) run ->
  Forall (fun c => is_digit c = true) (ascii_transform R run) /\
  decimal_number (ascii_transform R run) = run_number R run.
Proof.
  induction 1 as [|c run Hc _ [IHd IHn]]; [done|].
  destruct (ascii_transform_decimal c Hc) as [Hone Hlt].
  change (ascii_transform R (c :: run))
    with (ascii_transform R [c] ++ ascii_transform R run).
  rewrite Hone. simpl. split.
  - constructor; [|done]. apply is_digit_range. lia.
  - rewrite IHn. unfold ascii_transform. rewrite length_map.
    f_equal. f_equal. lia.
Qed.

(** [int] on a run of decimal characters: the number they write. *)
Lemma py_int_run (run : pystr) :
  run <> [] -> Forall (fun c => is_decimal R c = true) run ->
  py_int R run = Some (Z.of_N (run_number R run)).
Proof.
  intros Hne Hrun. destruct (ascii_transform_run run Hrun) as [Hd Hn].
  unfold py_int. destruct (ascii_transform R run) as [|d ds] eqn:Ha.
  { destruct run; [done|discriminate Ha]. }
  pose proof Hd as Hd'. apply Forall_cons in Hd' as [Hd0%is_digit_range _].
  rewrite drop_while_head.
  2:{ unfold Py_ISSPACE. apply orb_false_iff. split.
      - apply andb_false_iff. right. apply N.leb_gt. lia.
      - apply N.eqb_neq. lia. }
  assert (parse_sign (d :: ds) = (false, d :: ds)) as ->.
  { unfold parse_sign.
    rewrite (proj2 (N.eqb_neq d 45)), (proj2 (N.eqb_neq d 43)) by lia. done. }
  rewrite (proj2 (is_digit_range d) Hd0).
  rewrite scan_int_digits_all; [|done|done].
  simpl drop_while. cbv iota. rewrite digits_value_from, <- Hn.
  by rewrite N.mul_0_l, N.add_0_l.
Qed.

End AgeGroups.


(** ** The shape of the table *)

Lemma cells_to_float_length (R : Runtime) (cells : list (option pystr)) (fs : list float) :
  Pandas.cells_to_float R cells = Returned fs -> length fs = length cells.
Proof.
  revert fs. induction cells as [|x cells IH]; intros fs; simpl.
  - by intros [= <-].
  - destruct (Pandas.cell_to_float R x); simpl; [|done].
    destruct (Pandas.cells_to_float R cells) as [fs'|]; simpl; [|done].
    intros [= <-]. simpl. by rewrite (IH fs').
Qed.

Lemma converted_column_length (R : Runtime) (c : column) :
  col_len (converted_column R c) = col_len c.
Proof.
  destruct c as [cells|vals|vals|vals]; try done. simpl.
  destruct (Pandas.cells_to_float R _) as [fs|] eqn:Hfs; [|done].
  apply cells_to_float_length in Hfs. simpl. by rewrite Hfs, length_map.
Qed.

(** The conversion pass keeps the invariant of the data model, the labels
    and the number of rows. *)
Lemma converted_table_well_formed (R : Runtime) (df : DataFrame) :
  well_formed df ->
  well_formed (converted_table R df) /\
  columns (converted_table R df) = columns df /\
  nrows (converted_table R df) = nrows df.
Proof.
  intros [Hnd Hlen].
  assert (columns (converted_table R df) = columns df) as Hcols.
  { unfold columns, converted_table. simpl. rewrite map_map. by apply map_ext. }
  repeat split; [by rewrite Hcols| |done].
  unfold converted_table. simpl. apply Forall_forall.
  intros nc' (nc & -> & Hin)%list_elem_of_fmap. simpl.
  rewrite converted_column_length. by apply (proj1 (Forall_forall _ _) Hlen).
Qed.

(** ** Writing, then loading what was written *)

(** X1. After [save_processed_data] has written a dataset, [load_kosis_csv] on
    the name it wrote, with the codec it used, hands the parser the very
    bytes of the writer, and returns the dataset the parser makes of
    them. *)
Lemma saved_file_is_loaded (R : Runtime) (df df' : DataFrame) (filename : pystr)
    (w : world) (payload : list N) :
  slash ∉ filename ->
  DATA_DIR R ∈ directories w ->
  DATA_DIR R ++ [py "processed_" ++ filename] ∉ directories w ->
  utf8_encode (csv_write R (Pandas.to_csv_records R df false)) = Some payload ->
  csv_parse R (map byte_of_N (BOM ++ payload)) Utf8Sig = Returned df' ->
  exists w1 ls,
    save_processed_data R (Some df) filename w = (Returned tt, w1) /\
    load_kosis_csv R (py "processed_" ++ filename) Utf8Sig w1
    = (Returned (Some df'), printed w1 ls).
Proof.
  intros Hname Hdir Hfile Henc Hparse.
  eexists _, _. split; [by apply save_processed_data_written|].
  rewrite load_kosis_csv_by_outcome, path_join_processed by done.
  rewrite (read_csv_found _ _ _ _ (map byte_of_N (BOM ++ payload))).
  - rewrite Hparse. reflexivity.
  - simpl. apply lookup_insert_eq.
Qed.

(** ** The statements on the sample data *)

Import Sample.

Ltac decide_by_computation := apply (bool_decide_unpack _); vm_compute; exact I.

Lemma sample_database_ok : unicode_database_ok sample_runtime.
Proof.
  unfold unicode_database_ok, sample_runtime, sample_decimal, sample_space. simpl.
  repeat split.
  - intros c d. destruct (is_digit c) eqn:Hd.
    + apply is_digit_range in Hd. intros [= <-]. lia.
    + destruct ((1632 <=? c) && (c <=? 1641)) eqn:Ha; [|done].
      apply andb_true_iff in Ha as [?%N.leb_le ?%N.leb_le]. intros [= <-]. lia.
  - intros c Hc. unfold is_digit. destruct ((48 <=? c) && (c <=? 57)); [done|].
    by rewrite (proj2 (N.leb_gt 1632 c)) by lia.
  - intros c d. unfold Py_ISSPACE. destruct (is_digit c) eqn:Hd.
    + apply is_digit_range in Hd. intros _.
      repeat (apply orb_false_iff; split);
        first [apply andb_false_iff; right; apply N.leb_gt; lia
              | apply N.eqb_neq; lia].
    + destruct ((1632 <=? c) && (c <=? 1641)) eqn:Ha; [|done].
      apply andb_true_iff in Ha as [?%N.leb_le ?%N.leb_le]. intros _.
      repeat (apply orb_false_iff; split);
        first [apply andb_false_iff; right; apply N.leb_gt; lia
              | apply N.eqb_neq; lia].
Qed.

(** C1 on the sample: the population column with the cell "-" stays text,
    its two numbers included. *)
Lemma conversion_is_all_or_nothing_witness :
  exists df',
    clean_population_data sample_runtime (Some population_with_gaps) sample_world
    = (Returned (Some df'),
       printed sample_world
         ([[Lit (newline :: py "[인구 데이터 정제 중...]")]]
          ++ missing_report df'
          ++ [[Lit (py "✓ 인구 데이터 정제 완료")]])) /\
    nrows df' = nrows population_with_gaps /\
    cols df' !! 1%nat
    = Some (py "인구 (명)",
            ObjectCol [Some (py "2,500,000"); Some (py "-"); Some (py "2,700,000")]).
Proof.
  apply (conversion_is_all_or_nothing sample_runtime population_with_gaps 1
           (py "인구 (명)") _ (py "-") sample_world).
  - decide_by_computation.
  - reflexivity.
  - decide_by_computation.
  - vm_compute. reflexivity.
Defined.


(** The two cells of that column are the floats 2500000.0 and 2600000.0,
    and no missing value is reported. *)
Example population_cleaned :
  clean_population_data sample_runtime (Some population) sample_world
  = (Returned
       (Some (mkDataFrame 2
          [(py "시점", Int64Col [2020; 2021]%Z);
           (py "연령별(5세)", ObjectCol [Some (py "15-19세"); Some (py "20-24세")]);
           (py "인구 (명)",
            Float64Col [S754_finite false 5368709120000000 (-31);
                        S754_finite false 5583457484800000 (-31)])])),
     printed sample_world
       [[Lit (newline :: py "[인구 데이터 정제 중...]")];
        [Lit (py "✓ 인구 데이터 정제 완료")]])
  /\ float_to_Z (S754_finite false 5368709120000000 (-31)) = Some 2500000%Z
  /\ float_to_Z (S754_finite false 5583457484800000 (-31)) = Some 2600000%Z
  /\ py_float sample_runtime (str_replace1 comma [] (py "1,234,567"))
     = Some (S754_finite false 5302424889720832 (-32))
  /\ float_to_Z (S754_finite false 5302424889720832 (-32)) = Some 1234567%Z.
Proof. repeat split; by vm_compute. Qed.

(** C8 on the sample: one missing ratio is counted and printed; the
    population column, left as text, has no missing cell. *)
Lemma missing_values_reported_exactly_witness :
  exists df',
    convert_text_columns sample_runtime population_with_gaps = Returned df' /\
    Pandas.sum (Pandas.isnull df')
    = map (fun nc => (fst nc, Z.of_nat (count_missing (snd nc)))) (cols df') /\
    (forall nc, nc ∈ cols df' ->
       count_missing (snd nc) = 0%nat <-> forall i, missing_at (snd nc) i = false) /\
    clean_population_data sample_runtime (Some population_with_gaps) sample_world
    = (Returned (Some df'),
       printed sample_world
         ([[Lit (newline :: py "[인구 데이터 정제 중...]")]]
          ++ missing_report df'
          ++ [[Lit (py "✓ 인구 데이터 정제 완료")]])).
Proof.
  apply (missing_values_reported_exactly sample_runtime population_with_gaps sample_world).
  decide_by_computation.
Defined.

Example gaps_reported :
  console (snd (clean_population_data sample_runtime (Some population_with_gaps)
                                      sample_world))
  = [[Lit (newline :: py "[인구 데이터 정제 중...]")];
     [Lit (py "  결측치 발견: "); FSeries [(py "비율", 1%Z)]];
     [Lit (py "✓ 인구 데이터 정제 완료")]].
Proof. by vm_compute. Qed.


(** The file begins with the three bytes of the mark, and its text is the
    header and the two rows. *)
Example population_file :
  files (snd (save_processed_data sample_runtime
                (Some (converted_table sample_runtime population))
                (py "population.csv") sample_world))
    !! (data_dir ++ [py "processed_population.csv"])
  = option_map (fun t => map byte_of_N (BOM ++ t))
      (utf8_encode
         (py "시점,연령별(5세),인구 (명)" ++ [newline]
          ++ py "2020,15-19세,2500000.0" ++ [newline]
          ++ py "2021,20-24세,2600000.0" ++ [newline])).
Proof. by vm_compute. Qed.


Example convert_age_group_samples :
  convert_age_group sample_runtime PyNone = Returned None /\
  convert_age_group sample_runtime (PyFloat nan) = Returned None /\
  convert_age_group sample_runtime (PyStr (py "65세 이상")) = Returned (Some 65%Z) /\
  convert_age_group sample_runtime (PyStr (py "계")) = Returned None /\
  convert_age_group sample_runtime (PyStr [1633; 1637]) = Returned (Some 15%Z) /\
  convert_age_group sample_runtime (PyInt 20) = Returned (Some 20%Z).
Proof. repeat split; by vm_compute. Qed.

(** A label that two columns carry makes the conversion pass raise. *)
Example duplicate_labels_raise :
  convert_text_columns sample_runtime
    (mkDataFrame 1 [(py "a", ObjectCol [Some (py "1")]);
                    (py "a", ObjectCol [Some (py "2")])])
  = Raised (Exn AttributeError (py "'DataFrame' object has no attribute 'dtype'")).
Proof. by vm_compute. Qed.

(** The loader on the sample: a file of two rows, and a missing file. *)
Example load_samples :
  fst (load_kosis_csv sample_runtime (py "kosis_population.csv") Cp949 sample_world)
  = Returned (Some (mkDataFrame 2 [(py "name", ObjectCol [Some (py "a"); Some (py "b")])]))
  /\ load_kosis_csv sample_runtime (py "kosis_employment.csv") Cp949 sample_world
     = (Returned None,
        printed sample_world
          [[Lit (py "✗ "); FStr (py "kosis_employment.csv");
            Lit (py " 파일을 찾을 수 없습니다.")];
           [Lit (py "   경로: "); FPath (data_dir ++ [py "kosis_employment.csv"])]]).
Proof. split; by vm_compute. Qed.

(* ================================================================== *)
(** * Part III: further properties of the script *)
(* ================================================================== *)

(** ** What the cleaner keeps *)

Lemma converted_column_dtype (R : Runtime) (c : column) :
  (col_dtype c <> object -> converted_column R c = c) /\
  (col_dtype c = object ->
   converted_column R c = c \/ col_dtype (converted_column R c) = float64).
Proof.
  destruct c as [cells|vals|vals|vals]; simpl; split; try done.
  intros _. destruct (Pandas.cells_to_float R _); [by right|by left].
Qed.

(** X2. On a table whose labels identify its columns,
    [clean_population_data] returns a table with the same labels in the
    same order and the same number of rows; a column keeps its place and
    its length, a column that is not text is returned as it was, and a text
    column is returned either as it was or as a float column. *)
Theorem cleaning_keeps_shape (R : Runtime) (df : DataFrame) (w : world) :
  NoDup (columns df) ->
  exists df' w',
    clean_population_data R (Some df) w = (Returned (Some df'), w') /\
    files w' = files w /\ directories w' = directories w /\
    columns df' = columns df /\ nrows df' = nrows df /\
    forall i label c, cols df !! i = Some (label, c) ->
      exists c', cols df' !! i = Some (label, c') /\
                 col_len c' = col_len c /\
                 (col_dtype c <> object -> c' = c) /\
                 (col_dtype c = object -> c' = c \/ col_dtype c' = float64).
Proof.
  intros Hnd. eexists (converted_table R df), _.
  split; [by apply clean_population_data_unique|].
  split; [done|]. split; [done|]. split.
  { unfold columns, converted_table. simpl. rewrite map_map. by apply map_ext. }
  split; [done|].
  intros i label c Hi. exists (converted_column R c).
  split; [by apply converted_table_lookup|].
  split; [apply converted_column_length|]. apply converted_column_dtype.
Qed.

Lemma converted_column_idempotent (R : Runtime) (c : column) :
  converted_column R (converted_column R c) = converted_column R c.
Proof.
  destruct c as [cells|vals|vals|vals]; try done. simpl.
  destruct (Pandas.cells_to_float R _) eqn:E; [done|]. simpl. by rewrite E.
Qed.

Lemma converted_table_idempotent (R : Runtime) (df : DataFrame) :
  converted_table R (converted_table R df) = converted_table R df.
Proof.
  unfold converted_table. simpl. f_equal. rewrite map_map.
  apply map_ext. intros [n c]. simpl. by rewrite converted_column_idempotent.
Qed.

Lemma converted_table_columns (R : Runtime) (df : DataFrame) :
  columns (converted_table R df) = columns df.
Proof. unfold columns, converted_table. simpl. rewrite map_map. by apply map_ext. Qed.

(** X3. Cleaning a cleaned table changes nothing: on a table whose labels
    identify its columns, [clean_population_data] applied to the table it
    returned returns that table again. *)
Theorem cleaning_is_idempotent (R : Runtime) (df : DataFrame) (w w2 : world) :
  NoDup (columns df) ->
  exists df' w' w2',
    clean_population_data R (Some df) w = (Returned (Some df'), w') /\
    clean_population_data R (Some df') w2 = (Returned (Some df'), w2').
Proof.
  intros Hnd. eexists (converted_table R df), _, _. split.
  - by apply clean_population_data_unique.
  - rewrite clean_population_data_unique by (by rewrite converted_table_columns).
    by rewrite converted_table_idempotent.
Qed.

(** ** Missing cells through the conversion *)

Lemma cells_to_float_missing (R : Runtime) (cells : list (option pystr))
    (fs : list float) (r : nat) :
  Pandas.cells_to_float R cells = Returned fs ->
  cells !! r = Some None -> fs !! r = Some nan.
Proof.
  revert fs r. induction cells as [|x cells IH]; intros fs r; simpl; [done|].
  destruct (Pandas.cell_to_float R x) as [f|] eqn:Hx; simpl; [|done].
  destruct (Pandas.cells_to_float R cells) as [fs'|]; simpl; [|done].
  intros [= <-]. destruct r as [|r]; simpl.
  - intros [= ->]. simpl in Hx. by injection Hx as <-.
  - by apply IH.
Qed.

Lemma converted_column_missing (R : Runtime) (c : column) (r : nat) :
  missing_at c r = true -> missing_at (converted_column R c) r = true.
Proof.
  destruct c as [cells|vals|vals|vals]; try done. simpl.
  destruct (Pandas.cells_to_float R _) as [fs|] eqn:E; [|done].
  destruct (cells !! r) as [[s|]|] eqn:Hr; try done. intros _. simpl.
  rewrite (cells_to_float_missing R _ fs r E); [done|].
  change (map ?f ?l) with (f <$> l). by rewrite list_lookup_fmap, Hr.
Qed.

Lemma count_missing_le (c c' : column) :
  col_len c = col_len c' ->
  (forall r, missing_at c r = true -> missing_at c' r = true) ->
  (count_missing c <= count_missing c')%nat.
Proof.
  intros Hlen Hmono. unfold count_missing. rewrite <- Hlen.
  generalize (seq 0 (col_len c)). intros l.
  induction l as [|r l IH]; [done|].
  destruct (missing_at c r) eqn:E.
  - rewrite !filter_cons_True by auto. simpl. lia.
  - rewrite (filter_cons_False _ r l) by (by rewrite E).
    destruct (decide (missing_at c' r = true)).
    + rewrite filter_cons_True by done. simpl. lia.
    + by rewrite filter_cons_False by done.
Qed.

(** X4. The conversion never makes a missing cell present: on a table whose
    labels identify its columns, a cell that is missing before
    [clean_population_data] is missing in the table it returns, so the
    count of missing cells of a column does not go down. *)
Theorem missing_cells_stay_missing (R : Runtime) (df : DataFrame) (w : world) :
  NoDup (columns df) ->
  exists df' w',
    clean_population_data R (Some df) w = (Returned (Some df'), w') /\
    forall i label c, cols df !! i = Some (label, c) ->
      exists c', cols df' !! i = Some (label, c') /\
                 (forall r, missing_at c r = true -> missing_at c' r = true) /\
                 (count_missing c <= count_missing c')%nat.
Proof.
  intros Hnd. eexists (converted_table R df), _.
  split; [by apply clean_population_data_unique|].
  intros i label c Hi. exists (converted_column R c).
  split; [by apply converted_table_lookup|].
  split; [intros r; apply converted_column_missing|].
  apply count_missing_le; [by rewrite converted_column_length|].
  intros r. apply converted_column_missing.
Qed.

(** ** A label carried by two columns *)

Section SharedLabels.
Context (R : Runtime).

Lemma filter_label_length (col : pystr) (l : list (pystr * column)) :
  length (filter (fun nc => Pandas.has_label col nc = true) l)
  = length (filter (fun n => n = col) (map fst l)).
Proof.
  induction l as [|nc l IH]; [done|]. simpl map.
  destruct (decide (fst nc = col)) as [Heq|Hne].
  - rewrite !filter_cons_True; [|done|by apply has_label_true]. simpl. by rewrite IH.
  - rewrite !filter_cons_False; [done|done|]. by rewrite has_label_true.
Qed.

Lemma filter_label_present (col : pystr) (l : list (pystr * column)) :
  col ∈ map fst l -> filter (fun nc => Pandas.has_label col nc = true) l <> [].
Proof.
  intros (nc & -> & Hin)%list_elem_of_fmap Hnil.
  apply (filter_nil_not_elem_of _ _ nc Hnil); [by apply has_label_true|done].
Qed.

Lemma two_in_filter {A} (P : A -> Prop) `{!forall x, Decision (P x)} (l : list A)
    (i j : nat) (a b : A) :
  i <> j -> l !! i = Some a -> l !! j = Some b -> P a -> P b ->
  (2 <= length (filter P l))%nat.
Proof.
  assert (forall (l : list A) k x, l !! k = Some x -> P x ->
            (1 <= length (filter P l))%nat) as Hone.
  { intros l' k x Hk Hx.
    assert (x ∈ filter P l') as Hin.
    { apply list_elem_of_filter. split; [done|]. by eapply list_elem_of_lookup_2. }
    destruct (filter P l'); [by apply elem_of_nil in Hin|simpl; lia]. }
  revert i j. induction l as [|x l IH]; intros i j Hij Hi Hj Ha Hb; [done|].
  destruct i as [|i], j as [|j]; simpl in *; try done.
  - injection Hi as ->. rewrite filter_cons_True by done. simpl.
    pose proof (Hone l j b Hj Hb). lia.
  - injection Hj as ->. rewrite filter_cons_True by done. simpl.
    pose proof (Hone l i a Hi Ha). lia.
  - assert (2 <= length (filter P l))%nat as Hl by (apply (IH i j); auto).
    destruct (decide (P x)).
    + rewrite filter_cons_True by done. simpl. lia.
    + by rewrite filter_cons_False by done.
Qed.

(** The body of the loop on a label that several columns carry. *)
Lemma convert_column_shared (df : DataFrame) (col : pystr) :
  (2 <= length (filter (fun n => n = col) (columns df)))%nat ->
  convert_column R df col = Raised (Exn AttributeError dtype_message).
Proof.
  unfold columns. rewrite <- filter_label_length. intros Hlen.
  unfold convert_column, Pandas.getitem.
  destruct (filter _ (cols df)) as [|nc [|nc' l]]; simpl in Hlen; try lia.
  unfold dtype_message. reflexivity.
Qed.

Lemma setitem_columns (df : DataFrame) (col : pystr) (c : column) :
  col ∈ columns df -> columns (Pandas.setitem df col c) = columns df.
Proof.
  intros Hin. unfold Pandas.setitem.
  assert (existsb (Pandas.has_label col) (cols df) = true) as ->.
  { apply list_elem_of_fmap in Hin as (nc & -> & Hin).
    apply existsb_exists. exists nc. split; [by apply list_elem_of_In|].
    by apply has_label_true. }
  unfold columns. simpl. rewrite map_map. apply map_ext.
  intros nc. by destruct (Pandas.has_label col nc).
Qed.

(** The body of the loop on a label of the table: it returns a table with
    the same labels, unless several columns carry the label. *)
Lemma convert_column_labels (df : DataFrame) (col : pystr) :
  col ∈ columns df ->
  length (filter (fun n => n = col) (columns df)) = 1%nat ->
  exists df', convert_column R df col = Returned df' /\ columns df' = columns df.
Proof.
  intros Hin. unfold columns at 1. rewrite <- filter_label_length. intros Hlen.
  unfold convert_column, Pandas.getitem.
  destruct (filter _ (cols df)) as [|nc [|nc' l]]; simpl in Hlen; try lia.
  simpl. destruct (dtype_eqb (col_dtype (snd nc)) object);
    [|by eexists; split].
  destruct (snd nc) as [cells|vals|vals|vals]; simpl; try (by eexists; split).
  destruct (Pandas.cells_to_float R _) as [fs|]; simpl; [|by eexists; split].
  eexists. split; [done|]. by apply setitem_columns.
Qed.

Lemma for_each_convert_shared (names : list pystr) (df : DataFrame) (col : pystr) :
  (forall n, n ∈ names -> n ∈ columns df) ->
  col ∈ names ->
  (2 <= length (filter (fun n => n = col) (columns df)))%nat ->
  for_each names df (convert_column R) = Raised (Exn AttributeError dtype_message).
Proof.
  revert df. induction names as [|x names IH]; intros df Hsub Hcol Hshared.
  { by apply elem_of_nil in Hcol. }
  simpl.
  destruct (decide (2 <= length (filter (fun n => n = x) (columns df)))%nat)
    as [Hx|Hx].
  { by rewrite convert_column_shared. }
  assert (x ∈ columns df) as Hxin by (apply Hsub; left).
  destruct (convert_column_labels df x Hxin) as (df' & -> & Hlabels).
  { assert (filter (fun n => n = x) (columns df) <> []) as Hne.
    { intros Hnil. by apply (filter_nil_not_elem_of _ _ x Hnil). }
    destruct (filter (fun n => n = x) (columns df)) as [|? [|? ?]]; simpl in *;
      try done; lia. }
  simpl. apply IH.
  - intros n Hn. rewrite Hlabels. apply Hsub. by right.
  - apply elem_of_cons in Hcol as [->|Hcol]; [done|done].
  - by rewrite Hlabels.
Qed.

End SharedLabels.


(** ** Cells with nothing to read *)

Lemma converted_column_kept (R : Runtime) (cells : list (option pystr)) (s : pystr) :
  Some s ∈ cells -> py_float R (str_replace1 comma [] s) = None ->
  converted_column R (ObjectCol cells) = ObjectCol cells.
Proof.
  intros Hin Hs. unfold converted_column.
  pose proof (cells_to_float_raises R
                (map (option_map (str_replace1 comma [])) cells)
                (str_replace1 comma [] s)) as Hraise.
  destruct (Pandas.cells_to_float R _); [|done].
  discriminate Hraise; [|done].
  apply (list_elem_of_fmap_2 (option_map (str_replace1 comma [])) _ (Some s)), Hin.
Qed.

Lemma blank_text_without_commas (s : pystr) :
  blank_text s ->
  Forall (fun c => Py_ISSPACE c = true) (str_replace1 comma [] s).
Proof.
  unfold blank_text, str_replace1. induction 1 as [|c s Hc _ IH]; simpl; [done|].
  destruct (N.eqb_spec c comma) as [->|Hne]; [done|].
  simpl. constructor; [|done]. by destruct Hc.
Qed.

Lemma py_float_white_space (R : Runtime) (t : pystr) :
  Forall (fun c => Py_ISSPACE c = true) t -> py_float R t = None.
Proof.
  intros Ht. unfold py_float. rewrite ascii_transform_ascii.
  - unfold strip. unfold pystr, codepoint in *.
    by rewrite (drop_while_all Py_ISSPACE t Ht).
  - eapply Forall_impl; [exact Ht|]. intros c Hc. simpl in Hc.
    unfold Py_ISSPACE in Hc.
    apply orb_true_iff in Hc as [[_ Hc%N.leb_le]%andb_true_iff|Hc%N.eqb_eq]; lia.
Qed.

(** X6. A text cell with nothing to read in it, be it empty or made of
    commas and white space, stops the conversion of its column: on a table
    whose labels identify its columns, [clean_population_data] returns the
    column as the text column it was. *)
Theorem blank_cell_blocks_conversion (R : Runtime) (df : DataFrame) (i : nat)
    (label : pystr) (cells : list (option pystr)) (s : pystr) (w : world) :
  NoDup (columns df) ->
  cols df !! i = Some (label, ObjectCol cells) ->
  Some s ∈ cells ->
  blank_text s ->
  exists df' w',
    clean_population_data R (Some df) w = (Returned (Some df'), w') /\
    cols df' !! i = Some (label, ObjectCol cells).
Proof.
  intros Hnd Hi Hin Hblank. eexists (converted_table R df), _.
  split; [by apply clean_population_data_unique|].
  rewrite (converted_table_lookup R df i label _ Hi). do 2 f_equal.
  apply (converted_column_kept R cells s Hin).
  by apply py_float_white_space, blank_text_without_commas.
Qed.

(** ** The further properties on the sample data *)

(** X1 on the sample, with the sample reader of one-column files. *)
Lemma saved_file_is_loaded_witness :
  let df := mkDataFrame 2 [(py "name", ObjectCol [Some (py "a"); Some (py "b")])] in
  exists w1 ls,
    save_processed_data sample_runtime (Some df) (py "names.csv") sample_world
    = (Returned tt, w1) /\
    load_kosis_csv sample_runtime (py "processed_" ++ py "names.csv") Utf8Sig w1
    = (Returned (Some (mkDataFrame 2
         [(utf8_decode BOM ++ py "name", ObjectCol [Some (py "a"); Some (py "b")])])),
       printed w1 ls).
Proof.
  apply (saved_file_is_loaded sample_runtime _ _ (py "names.csv") sample_world
           (default [] (utf8_encode (py "name" ++ [newline] ++ py "a" ++ [newline]
                                     ++ py "b" ++ [newline])))).
  - decide_by_computation.
  - decide_by_computation.
  - decide_by_computation.
  - by vm_compute.
  - by vm_compute.
Defined.

Lemma cleaning_keeps_shape_witness :
  exists df' w',
    clean_population_data sample_runtime (Some population_with_gaps) sample_world
    = (Returned (Some df'), w') /\
    files w' = files sample_world /\ directories w' = directories sample_world /\
    columns df' = columns population_with_gaps /\
    nrows df' = nrows population_with_gaps /\
    forall i label c, cols population_with_gaps !! i = Some (label, c) ->
      exists c', cols df' !! i = Some (label, c') /\
                 col_len c' = col_len c /\
                 (col_dtype c <> object -> c' = c) /\
                 (col_dtype c = object -> c' = c \/ col_dtype c' = float64).
Proof.
  apply (cleaning_keeps_shape sample_runtime population_with_gaps sample_world).
  decide_by_computation.
Defined.

Lemma cleaning_is_idempotent_witness :
  exists df' w' w2',
    clean_population_data sample_runtime (Some population_with_gaps) sample_world
    = (Returned (Some df'), w') /\
    clean_population_data sample_runtime (Some df') sample_world
    = (Returned (Some df'), w2').
Proof.
  apply (cleaning_is_idempotent sample_runtime population_with_gaps
           sample_world sample_world).
  decide_by_computation.
Defined.

Lemma missing_cells_stay_missing_witness :
  exists df' w',
    clean_population_data sample_runtime (Some population_with_gaps) sample_world
    = (Returned (Some df'), w') /\
    forall i label c, cols population_with_gaps !! i = Some (label, c) ->
      exists c', cols df' !! i = Some (label, c') /\
                 (forall r, missing_at c r = true -> missing_at c' r = true) /\
                 (count_missing c <= count_missing c')%nat.
Proof.
  apply (missing_cells_stay_missing sample_runtime population_with_gaps sample_world).
  decide_by_computation.
Defined.

(** A cell that reads "nan" converts to a missing value: the count of a
    column can go up. *)
Example nan_text_becomes_missing :
  converted_column sample_runtime (ObjectCol [Some (py "nan"); Some (py "1,000")])
  = Float64Col [nan; S754_finite false 8796093022208000 (-43)]
  /\ count_missing (ObjectCol [Some (py "nan"); Some (py "1,000")]) = 0%nat
  /\ count_missing (Float64Col [nan; S754_finite false 8796093022208000 (-43)]) = 1%nat.
Proof. repeat split; by vm_compute. Qed.


Lemma blank_cell_blocks_conversion_witness :
  exists df' w',
    clean_population_data sample_runtime
      (Some (mkDataFrame 2 [(py "n", ObjectCol [Some (py "1,000"); Some []])]))
      sample_world
    = (Returned (Some df'), w') /\
    cols df' !! 0%nat = Some (py "n", ObjectCol [Some (py "1,000"); Some []]).
Proof.
  apply (blank_cell_blocks_conversion sample_runtime _ 0 (py "n") _ [] sample_world).
  - decide_by_computation.
  - reflexivity.
  - decide_by_computation.
  - constructor.
Defined.
